(* ===================================================================== *)
(* Williams WPC (Alpha Numeric) driver: src/mame/drivers/wpc_an.cpp       *)
(*                                                                       *)
(* A shallow embedding of the driver state class wpc_an_state and of its *)
(* handlers, followed by the properties of the address map, the          *)
(* protected RAM, the ROM bank window, the two timers and the sound      *)
(* link.  Integers are Z with the C++ wrap-around written out, arrays    *)
(* are lists updated by index, calls into devices that live in other     *)
(* files of the tree are recorded in the state of a small device model.  *)
(* ===================================================================== *)

From stdpp Require Import base list numbers.

Local Open Scope Z_scope.

(* --------------------------------------------------------------------- *)
(* Machine integers                                                       *)
(* --------------------------------------------------------------------- *)

Definition u8 (x : Z) : Z := x `mod` 0x100.
Definition u16 (x : Z) : Z := x `mod` 0x10000.
Definition u32 (x : Z) : Z := x `mod` 0x100000000.

(** Modelled from the spec: [BIT] and [bitswap] are MAME core helpers
    (emu headers, not in src/); the spec calls the transformation "a fixed
    bit-permutation (segment reordering)".  [bitswap val [b_(n-1); ...; b_0]]
    builds the value whose bit [i] is bit [b_i] of [val]; the selectors are
    listed from the most significant output bit down, as at the call site
    [bitswap<16>(v, 15, 7, 12, ...)]. *)
Definition BIT (x n : Z) : Z := Z.land (Z.shiftr x n) 1.

Fixpoint bitswap (val : Z) (b : list Z) : Z :=
  match b with
  | [] => 0
  | b0 :: c => Z.lor (Z.shiftl (BIT val b0) (Z.of_nat (length c))) (bitswap val c)
  end.

(* --------------------------------------------------------------------- *)
(* Devices the driver talks to                                            *)
(* --------------------------------------------------------------------- *)

Inductive line_state := CLEAR_LINE | ASSERT_LINE.

(* The two input lines of the MC6809E the driver drives. *)
Inductive input_line := M6809_IRQ_LINE | M6809_FIRQ_LINE.

Record cpu_device := {
  irq_line : line_state;
  firq_line : line_state
}.

Definition set_input_line (l : input_line) (v : line_state) (c : cpu_device)
  : cpu_device :=
  match l with
  | M6809_IRQ_LINE => {| irq_line := v; firq_line := firq_line c |}
  | M6809_FIRQ_LINE => {| irq_line := irq_line c; firq_line := v |}
  end.

(* memory_region: a base pointer, indexed like [ROM[i]], and a size. *)
Record memory_region := {
  base : Z -> Z;
  bytes : Z
}.

(** Modelled from the spec: memory_bank is an emu core class (not in
    src/).  Section 4.3: select stores the page index, and a read returns
    the byte at (selected_page * page_size) + offset within the backing
    image.  [configure_entries] records where the pages start and how far
    apart they are, as its call in init_wpc_an gives them. *)
Record memory_bank := {
  entries_start : Z;
  entries_count : Z;
  entries_base : Z;
  entries_stride : Z;
  entry : Z
}.

Definition configure_entries (startentry numentries base0 stride : Z)
    (b : memory_bank) : memory_bank :=
  {| entries_start := startentry; entries_count := numentries;
     entries_base := base0; entries_stride := stride; entry := entry b |}.

Definition set_entry (n : Z) (b : memory_bank) : memory_bank :=
  {| entries_start := entries_start b; entries_count := entries_count b;
     entries_base := entries_base b; entries_stride := entries_stride b;
     entry := n |}.

(* Offset, inside the backing region, of byte [offset] of the selected page. *)
Definition bank_address (b : memory_bank) (offset : Z) : Z :=
  entries_base b + (entry b - entries_start b) * entries_stride b + offset.

(* Where the pages of the bank lie: everything but the selected entry. *)
Definition bank_layout (b : memory_bank) : Z * Z * Z * Z :=
  (entries_start b, entries_count b, entries_base b, entries_stride b).

(** Modelled from the spec: wpc_device (machine/wpc.h, not in src/) is the
    Register File.  The driver only uses its protection comparator inputs
    (protection_enabled, protection_mask) and its raw alphanumeric store,
    read cell by cell and cleared as a whole; a cell outside the store
    reads as zero. *)
Record wpc_device := {
  memprotect : bool;
  memprotect_mask : Z;
  alpha_data : list Z
}.

Definition memprotect_active (w : wpc_device) : bool := memprotect w.
Definition get_memprotect_mask (w : wpc_device) : Z := memprotect_mask w.
Definition get_alphanumeric (x : Z) (w : wpc_device) : Z :=
  default 0 (alpha_data w !! Z.to_nat x).
Definition reset_alphanumeric (w : wpc_device) : wpc_device :=
  {| memprotect := memprotect w; memprotect_mask := memprotect_mask w;
     alpha_data := replicate (length (alpha_data w)) 0 |}.
Definition set_alphanumeric (x v : Z) (w : wpc_device) : wpc_device :=
  {| memprotect := memprotect w; memprotect_mask := memprotect_mask w;
     alpha_data := <[Z.to_nat x := v]> (alpha_data w) |}.
Definition set_protection (enabled : bool) (mask : Z) (w : wpc_device)
  : wpc_device :=
  {| memprotect := enabled; memprotect_mask := mask;
     alpha_data := alpha_data w |}.

(* A call received by a sound board, in the order the driver makes them. *)
Inductive sound_call :=
  | data_w (data : Z)
  | ctrl_w (data : Z).

(* s11c_bg_device (audio/s11c_bg.h): the legacy strobe board.  The driver
   only writes to it, so the board is the list of calls it has received. *)
Record s11c_bg_device := { bg_calls : list sound_call }.

Definition bg_call (c : sound_call) (d : s11c_bg_device) : s11c_bg_device :=
  {| bg_calls := bg_calls d ++ [c] |}.

(** Modelled from the spec: wpcsnd_device (audio/wpcsnd.h, not in src/) is
    the latch/semaphore board.  SoundLinkState is a semaphore bit and a
    single pending byte; the semaphore is cleared on read. *)
Record wpcsnd_device := {
  snd_calls : list sound_call;
  snd_reply : Z;
  snd_semaphore : bool
}.

Definition snd_call (c : sound_call) (d : wpcsnd_device) : wpcsnd_device :=
  {| snd_calls := snd_calls d ++ [c]; snd_reply := snd_reply d;
     snd_semaphore := snd_semaphore d |}.
Definition snd_ctrl_r (d : wpcsnd_device) : Z := Z.b2z (snd_semaphore d).
Definition snd_data_r (d : wpcsnd_device) : Z * wpcsnd_device :=
  (snd_reply d,
   {| snd_calls := snd_calls d; snd_reply := snd_reply d;
      snd_semaphore := false |}).

(* emu_timer after [adjust(from_hz(f), 0, from_hz(f))]: its id and rate. *)
Record emu_timer := { timer_id : Z; timer_hz : Z }.

(* The two format strings handed to logerror, with their arguments. *)
Inductive log_line :=
  | LOG_bank_mask (mask : Z)
  | LOG_protection_violation (offset mask : Z).

(* --------------------------------------------------------------------- *)
(* class wpc_an_state                                                     *)
(* --------------------------------------------------------------------- *)

Record wpc_an_state := {
  m_maincpu : cpu_device;
  m_bg : option s11c_bg_device;
  m_wpcsnd : option wpcsnd_device;
  m_cpubank : memory_bank;
  m_wpc : wpc_device;
  m_digits : list Z;
  m_vblank_count : Z;
  m_irq_count : Z;
  m_bankmask : Z;
  m_ram : list Z;
  m_vblank_timer : option emu_timer;
  m_irq_timer : option emu_timer;
  region_maincpu : memory_region;
  region_fixed : memory_region;
  errorlog : list log_line
}.

Definition TIMER_VBLANK : Z := 0.
Definition TIMER_IRQ : Z := 1.

Definition with_maincpu (f : cpu_device -> cpu_device) (s : wpc_an_state) :=
  {| m_maincpu := f (m_maincpu s); m_bg := m_bg s; m_wpcsnd := m_wpcsnd s;
     m_cpubank := m_cpubank s; m_wpc := m_wpc s; m_digits := m_digits s;
     m_vblank_count := m_vblank_count s; m_irq_count := m_irq_count s;
     m_bankmask := m_bankmask s; m_ram := m_ram s;
     m_vblank_timer := m_vblank_timer s; m_irq_timer := m_irq_timer s;
     region_maincpu := region_maincpu s; region_fixed := region_fixed s;
     errorlog := errorlog s |}.

Definition with_bg (v : option s11c_bg_device) (s : wpc_an_state) :=
  {| m_maincpu := m_maincpu s; m_bg := v; m_wpcsnd := m_wpcsnd s;
     m_cpubank := m_cpubank s; m_wpc := m_wpc s; m_digits := m_digits s;
     m_vblank_count := m_vblank_count s; m_irq_count := m_irq_count s;
     m_bankmask := m_bankmask s; m_ram := m_ram s;
     m_vblank_timer := m_vblank_timer s; m_irq_timer := m_irq_timer s;
     region_maincpu := region_maincpu s; region_fixed := region_fixed s;
     errorlog := errorlog s |}.

Definition with_wpcsnd (v : option wpcsnd_device) (s : wpc_an_state) :=
  {| m_maincpu := m_maincpu s; m_bg := m_bg s; m_wpcsnd := v;
     m_cpubank := m_cpubank s; m_wpc := m_wpc s; m_digits := m_digits s;
     m_vblank_count := m_vblank_count s; m_irq_count := m_irq_count s;
     m_bankmask := m_bankmask s; m_ram := m_ram s;
     m_vblank_timer := m_vblank_timer s; m_irq_timer := m_irq_timer s;
     region_maincpu := region_maincpu s; region_fixed := region_fixed s;
     errorlog := errorlog s |}.

Definition with_cpubank (f : memory_bank -> memory_bank) (s : wpc_an_state) :=
  {| m_maincpu := m_maincpu s; m_bg := m_bg s; m_wpcsnd := m_wpcsnd s;
     m_cpubank := f (m_cpubank s); m_wpc := m_wpc s; m_digits := m_digits s;
     m_vblank_count := m_vblank_count s; m_irq_count := m_irq_count s;
     m_bankmask := m_bankmask s; m_ram := m_ram s;
     m_vblank_timer := m_vblank_timer s; m_irq_timer := m_irq_timer s;
     region_maincpu := region_maincpu s; region_fixed := region_fixed s;
     errorlog := errorlog s |}.

Definition with_wpc (f : wpc_device -> wpc_device) (s : wpc_an_state) :=
  {| m_maincpu := m_maincpu s; m_bg := m_bg s; m_wpcsnd := m_wpcsnd s;
     m_cpubank := m_cpubank s; m_wpc := f (m_wpc s); m_digits := m_digits s;
     m_vblank_count := m_vblank_count s; m_irq_count := m_irq_count s;
     m_bankmask := m_bankmask s; m_ram := m_ram s;
     m_vblank_timer := m_vblank_timer s; m_irq_timer := m_irq_timer s;
     region_maincpu := region_maincpu s; region_fixed := region_fixed s;
     errorlog := errorlog s |}.

Definition with_digits (v : list Z) (s : wpc_an_state) :=
  {| m_maincpu := m_maincpu s; m_bg := m_bg s; m_wpcsnd := m_wpcsnd s;
     m_cpubank := m_cpubank s; m_wpc := m_wpc s; m_digits := v;
     m_vblank_count := m_vblank_count s; m_irq_count := m_irq_count s;
     m_bankmask := m_bankmask s; m_ram := m_ram s;
     m_vblank_timer := m_vblank_timer s; m_irq_timer := m_irq_timer s;
     region_maincpu := region_maincpu s; region_fixed := region_fixed s;
     errorlog := errorlog s |}.

Definition with_vblank_count (v : Z) (s : wpc_an_state) :=
  {| m_maincpu := m_maincpu s; m_bg := m_bg s; m_wpcsnd := m_wpcsnd s;
     m_cpubank := m_cpubank s; m_wpc := m_wpc s; m_digits := m_digits s;
     m_vblank_count := v; m_irq_count := m_irq_count s;
     m_bankmask := m_bankmask s; m_ram := m_ram s;
     m_vblank_timer := m_vblank_timer s; m_irq_timer := m_irq_timer s;
     region_maincpu := region_maincpu s; region_fixed := region_fixed s;
     errorlog := errorlog s |}.

Definition with_irq_count (v : Z) (s : wpc_an_state) :=
  {| m_maincpu := m_maincpu s; m_bg := m_bg s; m_wpcsnd := m_wpcsnd s;
     m_cpubank := m_cpubank s; m_wpc := m_wpc s; m_digits := m_digits s;
     m_vblank_count := m_vblank_count s; m_irq_count := v;
     m_bankmask := m_bankmask s; m_ram := m_ram s;
     m_vblank_timer := m_vblank_timer s; m_irq_timer := m_irq_timer s;
     region_maincpu := region_maincpu s; region_fixed := region_fixed s;
     errorlog := errorlog s |}.

Definition with_bankmask (v : Z) (s : wpc_an_state) :=
  {| m_maincpu := m_maincpu s; m_bg := m_bg s; m_wpcsnd := m_wpcsnd s;
     m_cpubank := m_cpubank s; m_wpc := m_wpc s; m_digits := m_digits s;
     m_vblank_count := m_vblank_count s; m_irq_count := m_irq_count s;
     m_bankmask := v; m_ram := m_ram s;
     m_vblank_timer := m_vblank_timer s; m_irq_timer := m_irq_timer s;
     region_maincpu := region_maincpu s; region_fixed := region_fixed s;
     errorlog := errorlog s |}.

Definition with_ram (v : list Z) (s : wpc_an_state) :=
  {| m_maincpu := m_maincpu s; m_bg := m_bg s; m_wpcsnd := m_wpcsnd s;
     m_cpubank := m_cpubank s; m_wpc := m_wpc s; m_digits := m_digits s;
     m_vblank_count := m_vblank_count s; m_irq_count := m_irq_count s;
     m_bankmask := m_bankmask s; m_ram := v;
     m_vblank_timer := m_vblank_timer s; m_irq_timer := m_irq_timer s;
     region_maincpu := region_maincpu s; region_fixed := region_fixed s;
     errorlog := errorlog s |}.

Definition with_timers (vb irq : option emu_timer) (s : wpc_an_state) :=
  {| m_maincpu := m_maincpu s; m_bg := m_bg s; m_wpcsnd := m_wpcsnd s;
     m_cpubank := m_cpubank s; m_wpc := m_wpc s; m_digits := m_digits s;
     m_vblank_count := m_vblank_count s; m_irq_count := m_irq_count s;
     m_bankmask := m_bankmask s; m_ram := m_ram s;
     m_vblank_timer := vb; m_irq_timer := irq;
     region_maincpu := region_maincpu s; region_fixed := region_fixed s;
     errorlog := errorlog s |}.

Definition with_fixed (v : memory_region) (s : wpc_an_state) :=
  {| m_maincpu := m_maincpu s; m_bg := m_bg s; m_wpcsnd := m_wpcsnd s;
     m_cpubank := m_cpubank s; m_wpc := m_wpc s; m_digits := m_digits s;
     m_vblank_count := m_vblank_count s; m_irq_count := m_irq_count s;
     m_bankmask := m_bankmask s; m_ram := m_ram s;
     m_vblank_timer := m_vblank_timer s; m_irq_timer := m_irq_timer s;
     region_maincpu := region_maincpu s; region_fixed := v;
     errorlog := errorlog s |}.

Definition logerror (l : log_line) (s : wpc_an_state) :=
  {| m_maincpu := m_maincpu s; m_bg := m_bg s; m_wpcsnd := m_wpcsnd s;
     m_cpubank := m_cpubank s; m_wpc := m_wpc s; m_digits := m_digits s;
     m_vblank_count := m_vblank_count s; m_irq_count := m_irq_count s;
     m_bankmask := m_bankmask s; m_ram := m_ram s;
     m_vblank_timer := m_vblank_timer s; m_irq_timer := m_irq_timer s;
     region_maincpu := region_maincpu s; region_fixed := region_fixed s;
     errorlog := errorlog s ++ [l] |}.

(* --------------------------------------------------------------------- *)
(* wpc_an_map                                                             *)
(* --------------------------------------------------------------------- *)

(* What an address range is bound to, one constructor per line of the map. *)
Inductive handler :=
  | rw_ram                (* .rw(FUNC(ram_r), FUNC(ram_w))              *)
  | ram                   (* .ram()                                     *)
  | rw_wpc                (* .rw(m_wpc, wpc_device::read, ::write)      *)
  | bankr_cpubank         (* .bankr("cpubank")                          *)
  | rom_region_fixed.     (* .rom().region("fixed", 0)                  *)

Record map_entry := {
  addrstart : Z;
  addrend : Z;
  bound_to : handler
}.

Definition wpc_an_map : list map_entry :=
  [ {| addrstart := 0x0000; addrend := 0x2fff; bound_to := rw_ram |};
    {| addrstart := 0x3000; addrend := 0x3faf; bound_to := ram |};
    {| addrstart := 0x3fb0; addrend := 0x3fff; bound_to := rw_wpc |};
    {| addrstart := 0x4000; addrend := 0x7fff; bound_to := bankr_cpubank |};
    {| addrstart := 0x8000; addrend := 0xffff; bound_to := rom_region_fixed |} ].

Definition in_range (a : Z) (e : map_entry) : bool :=
  (addrstart e <=? a) && (a <=? addrend e).

(* The entries an address falls in, in map order. *)
Definition owners (a : Z) : list map_entry :=
  filter (fun e => in_range a e = true) wpc_an_map.

(* Two ranges share no address. *)
Definition disjoint (e1 e2 : map_entry) : Prop :=
  addrend e1 < addrstart e2 \/ addrend e2 < addrstart e1.

(* The components the specification lists for the address space. *)
Inductive component :=
  | ProtectedRam | RegisterWindow | BankWindow | FixedUpperRom.

Definition handler_of (c : component) : handler :=
  match c with
  | ProtectedRam => rw_ram
  | RegisterWindow => rw_wpc
  | BankWindow => bankr_cpubank
  | FixedUpperRom => rom_region_fixed
  end.

(* --------------------------------------------------------------------- *)
(* Handlers                                                               *)
(* --------------------------------------------------------------------- *)

(* The segment reordering applied to every cell. *)
Definition segment_order : list Z :=
  [15; 7; 12; 10; 8; 14; 13; 9; 11; 6; 5; 4; 3; 2; 1; 0].

(* The reordering that undoes [segment_order]. *)
Definition segment_inverse : list Z :=
  [15; 10; 9; 13; 7; 12; 8; 11; 14; 6; 5; 4; 3; 2; 1; 0].

(* The raw cell shown by digit [i]: x for digit x and 20 + x for digit
   x + 16, with x in 0..15. *)
Definition digit_source (i : Z) : Z := if i <? 16 then i else i + 4.

(* Body of the loop of TIMER_VBLANK for one value of x. *)
Definition update_digits (w : wpc_device) (d : list Z) (x : Z) : list Z :=
  <[Z.to_nat (x + 16) := bitswap (get_alphanumeric (20 + x) w) segment_order]>
    (<[Z.to_nat x := bitswap (get_alphanumeric x w) segment_order]> d).

Definition device_timer (id : Z) (s : wpc_an_state) : wpc_an_state :=
  if id =? TIMER_VBLANK then
    let s1 :=
      with_digits (foldl (update_digits (m_wpc s)) (m_digits s) (seqZ 0 16)) s in
    let s2 := with_wpc reset_alphanumeric s1 in
    with_vblank_count (u16 (m_vblank_count s2 + 1)) s2
  else if id =? TIMER_IRQ then
    with_maincpu (set_input_line M6809_IRQ_LINE ASSERT_LINE) s
  else s.

Definition wpc_rombank_w (data : Z) (s : wpc_an_state) : wpc_an_state :=
  with_cpubank (set_entry (Z.land data (m_bankmask s))) s.

Definition wpcsnd_reply_w (state : Z) (s : wpc_an_state) : wpc_an_state :=
  if state =? 0 then s
  else with_maincpu (set_input_line M6809_FIRQ_LINE ASSERT_LINE) s.

Definition wpc_irq_w (state : Z) (s : wpc_an_state) : wpc_an_state :=
  with_maincpu (set_input_line M6809_IRQ_LINE CLEAR_LINE) s.

Definition wpc_firq_w (state : Z) (s : wpc_an_state) : wpc_an_state :=
  with_maincpu (set_input_line M6809_FIRQ_LINE CLEAR_LINE) s.

Definition wpc_sound_ctrl_r (s : wpc_an_state) : Z * wpc_an_state :=
  match m_wpcsnd s with
  | Some d => (snd_ctrl_r d, s)
  | None => (0, s)
  end.

(* With neither board present the source dereferences a null finder; the
   model leaves the state alone there. *)
Definition wpc_sound_ctrl_w (data : Z) (s : wpc_an_state) : wpc_an_state :=
  match m_bg s with
  | Some bg => with_bg (Some (bg_call (ctrl_w 1) (bg_call (data_w data) bg))) s
  | None =>
      match m_wpcsnd s with
      | Some d => with_wpcsnd (Some (snd_call (ctrl_w data) d)) s
      | None => s
      end
  end.

Definition wpc_sound_data_r (s : wpc_an_state) : Z * wpc_an_state :=
  match m_wpcsnd s with
  | Some d => (fst (snd_data_r d), with_wpcsnd (Some (snd (snd_data_r d))) s)
  | None => (0, s)
  end.

Definition wpc_sound_data_w (data : Z) (s : wpc_an_state) : wpc_an_state :=
  match m_bg s with
  | Some bg => with_bg (Some (bg_call (ctrl_w 0) (bg_call (data_w data) bg))) s
  | None =>
      match m_wpcsnd s with
      | Some d => with_wpcsnd (Some (snd_call (data_w data) d)) s
      | None => s
      end
  end.

Definition wpc_sound_s11_w (data : Z) (s : wpc_an_state) : wpc_an_state :=
  match m_bg s with
  | Some bg =>
      with_bg (Some (bg_call (ctrl_w 1) (bg_call (ctrl_w 0)
                       (bg_call (data_w data) bg)))) s
  | None => s
  end.

(* m_ram[offset]; the handler is only installed on 0x0000-0x2fff. *)
Definition ram_r (offset : Z) (s : wpc_an_state) : Z :=
  default 0 (m_ram s !! Z.to_nat offset).

Definition ram_w (offset data : Z) (s : wpc_an_state) : wpc_an_state :=
  if negb (memprotect_active (m_wpc s))
     || negb (Z.land offset (get_memprotect_mask (m_wpc s))
              =? get_memprotect_mask (m_wpc s))
  then with_ram (<[Z.to_nat offset := data]> (m_ram s)) s
  else logerror (LOG_protection_violation offset
                   (get_memprotect_mask (m_wpc s))) s.

Definition machine_reset (s : wpc_an_state) : wpc_an_state :=
  with_irq_count 0 (with_vblank_count 0 (with_cpubank (set_entry 0) s)).

(* memcpy(dst, &src[from], n) on region contents. *)
Definition memcpy (dst : Z -> Z) (src : Z -> Z) (from n : Z) : Z -> Z :=
  fun i => if (0 <=? i) && (i <? n) then src (from + i) else dst i.

Definition init_wpc_an (s : wpc_an_state) : wpc_an_state :=
  let ROM := base (region_maincpu s) in
  let fixed := base (region_fixed s) in
  let codeoff := u32 (bytes (region_maincpu s) - 0x8000) in
  let s := with_cpubank (configure_entries 0 32 0x10000 0x4000) s in
  let s := with_cpubank (set_entry 0) s in
  let s := with_timers (Some {| timer_id := TIMER_VBLANK; timer_hz := 60 |})
                       (Some {| timer_id := TIMER_IRQ; timer_hz := 976 |}) s in
  let s :=
    with_bankmask
      (u8 (u32 (Z.shiftr (u32 (bytes (region_maincpu s) - 0x10000)) 14 - 1))) s in
  let s := logerror (LOG_bank_mask (m_bankmask s)) s in
  let s := with_ram (replicate (Z.to_nat 0x3000) 0) s in
  with_fixed {| base := memcpy fixed ROM codeoff 0x8000;
                bytes := bytes (region_fixed s) |} s.

(* A read of the CPU through the 0x4000-0x7fff window and through the
   fixed region at 0x8000-0xffff. *)
Definition bank_r (offset : Z) (s : wpc_an_state) : Z :=
  base (region_maincpu s) (bank_address (m_cpubank s) offset).

Definition fixed_r (offset : Z) (s : wpc_an_state) : Z :=
  base (region_fixed s) offset.

(* Machine configurations: which sound board the machine is built with. *)
Definition wpc_an_base (s : wpc_an_state) : wpc_an_state :=
  with_wpcsnd None (with_bg None s).

Definition wpc_an (s : wpc_an_state) : wpc_an_state :=
  with_wpcsnd (Some {| snd_calls := []; snd_reply := 0;
                       snd_semaphore := false |}) (wpc_an_base s).

Definition wpc_an_dd (s : wpc_an_state) : wpc_an_state :=
  with_bg (Some {| bg_calls := [] |}) (wpc_an_base s).

(* The page count init_wpc_an derives from the size of "maincpu":
   (bytes - 0x10000) >> 14, in 32-bit unsigned arithmetic. *)
Definition image_size_pages (nbytes : Z) : Z :=
  Z.shiftr (u32 (nbytes - 0x10000)) 14.

(* Sizes of the "maincpu" region of the ROM sets of the driver. *)
Definition maincpu_region_sizes : list Z := [0x30000; 0x50000; 0x90000].

(* --------------------------------------------------------------------- *)
(* The machine as a transition system                                     *)
(* --------------------------------------------------------------------- *)

(* Everything that can happen to the driver after init_wpc_an: a timer
   fires, the CPU accesses the RAM or the bank window, the WPC ASIC calls
   one of the callbacks bound in wpc_an_base, the sound board signals a
   reply, the machine is reset, or the ASIC changes its own registers. *)
Inductive event :=
  | ev_timer (id : Z)
  | ev_ram_r (offset : Z)
  | ev_ram_w (offset data : Z)
  | ev_bank_r (offset : Z)
  | ev_fixed_r (offset : Z)
  | ev_rombank_w (data : Z)
  | ev_irq_w (state : Z)
  | ev_firq_w (state : Z)
  | ev_sound_ctrl_r
  | ev_sound_ctrl_w (data : Z)
  | ev_sound_data_r
  | ev_sound_data_w (data : Z)
  | ev_sound_s11_w (data : Z)
  | ev_wpcsnd_reply_w (state : Z)
  | ev_machine_reset
  | ev_wpc_alphanumeric_w (x v : Z)
  | ev_wpc_protection_w (enabled : bool) (mask : Z).

Definition step (s : wpc_an_state) (e : event) : wpc_an_state :=
  match e with
  | ev_timer id => device_timer id s
  | ev_ram_r _ => s
  | ev_ram_w offset data => ram_w offset data s
  | ev_bank_r _ => s
  | ev_fixed_r _ => s
  | ev_rombank_w data => wpc_rombank_w data s
  | ev_irq_w state => wpc_irq_w state s
  | ev_firq_w state => wpc_firq_w state s
  | ev_sound_ctrl_r => snd (wpc_sound_ctrl_r s)
  | ev_sound_ctrl_w data => wpc_sound_ctrl_w data s
  | ev_sound_data_r => snd (wpc_sound_data_r s)
  | ev_sound_data_w data => wpc_sound_data_w data s
  | ev_sound_s11_w data => wpc_sound_s11_w data s
  | ev_wpcsnd_reply_w state => wpcsnd_reply_w state s
  | ev_machine_reset => machine_reset s
  | ev_wpc_alphanumeric_w x v => with_wpc (set_alphanumeric x v) s
  | ev_wpc_protection_w enabled mask =>
      with_wpc (set_protection enabled mask) s
  end.

Definition run (s : wpc_an_state) (evs : list event) : wpc_an_state :=
  foldl step s evs.

(* The line the IRQ timer drives. *)
Definition tick_line (s : wpc_an_state) : line_state := irq_line (m_maincpu s).

Definition is_tick_fire (e : event) : bool :=
  match e with ev_timer id => id =? TIMER_IRQ | _ => false end.

Definition is_frame_fire (e : event) : bool :=
  match e with ev_timer id => id =? TIMER_VBLANK | _ => false end.

Definition is_irq_clear (e : event) : bool :=
  match e with ev_irq_w _ => true | _ => false end.

(* --------------------------------------------------------------------- *)
(* Concrete machines                                                      *)
(* --------------------------------------------------------------------- *)

(* A "maincpu" region of [n] bytes with recognisable contents. *)
Definition rom_image (n : Z) : memory_region :=
  {| base := fun a => a `mod` 251; bytes := n |}.

(* The driver object before init_wpc_an ran: nothing selected, RAM and
   digits holding leftovers. *)
Definition cold_state (rom : memory_region) : wpc_an_state :=
  {| m_maincpu := {| irq_line := CLEAR_LINE; firq_line := CLEAR_LINE |};
     m_bg := None; m_wpcsnd := None;
     m_cpubank := {| entries_start := 0; entries_count := 0;
                     entries_base := 0; entries_stride := 0; entry := 0 |};
     m_wpc := {| memprotect := true; memprotect_mask := 0x0800;
                 alpha_data := map (fun n => Z.of_nat n * 0x101) (seq 1 40) |};
     m_digits := replicate 32 0x7fff;
     m_vblank_count := 0xbeef; m_irq_count := 7; m_bankmask := 0xa5;
     m_ram := replicate (Z.to_nat 0x3000) 0xaa;
     m_vblank_timer := None; m_irq_timer := None;
     region_maincpu := rom;
     region_fixed := {| base := fun _ => 0; bytes := 0x8000 |};
     errorlog := [] |}.

(* Funhouse 9.05H: a 0x90000-byte region, WPC sound board. *)
Definition fh_905h : wpc_an_state :=
  init_wpc_an (wpc_an (cold_state (rom_image 0x90000))).

(* Dr. Dude: a 0x30000-byte region, System 11 background sound board. *)
Definition dd_p7 : wpc_an_state :=
  init_wpc_an (wpc_an_dd (cold_state (rom_image 0x30000))).

(* A region whose page count is not a power of two. *)
Definition three_pages : wpc_an_state :=
  init_wpc_an (wpc_an (cold_state (rom_image 0x1c000))).

(* --------------------------------------------------------------------- *)
(* Observations used by the wider properties                              *)
(* --------------------------------------------------------------------- *)

(* The line the sound board reply drives. *)
Definition firq_state (s : wpc_an_state) : line_state :=
  firq_line (m_maincpu s).

(* The two handlers that drive M6809_FIRQ_LINE. *)
Definition is_firq_event (e : event) : bool :=
  match e with
  | ev_firq_w _ | ev_wpcsnd_reply_w _ => true
  | _ => false
  end.

Definition is_reply_event (e : event) : bool :=
  match e with ev_wpcsnd_reply_w _ => true | _ => false end.

Definition is_ram_write (e : event) : bool :=
  match e with ev_ram_w _ _ => true | _ => false end.

(* The two handlers that call set_entry after init_wpc_an. *)
Definition is_bank_select (e : event) : bool :=
  match e with
  | ev_rombank_w _ | ev_machine_reset => true
  | _ => false
  end.

Definition is_alphanumeric_write (e : event) : bool :=
  match e with ev_wpc_alphanumeric_w _ _ => true | _ => false end.

(* The levels ctrl_w put on the strobe line, oldest first. *)
Definition strobe_line (calls : list sound_call) : list Z :=
  omap (fun c => match c with ctrl_w v => Some v | data_w _ => None end) calls.

(* The bytes data_w put on the bus, oldest first. *)
Definition data_bus (calls : list sound_call) : list Z :=
  omap (fun c => match c with data_w v => Some v | ctrl_w _ => None end) calls.

(* ===================================================================== *)
(* Properties                                                             *)
(* ===================================================================== *)

(* --------------------------------------------------------------------- *)
(* Protected RAM                                                          *)
(* --------------------------------------------------------------------- *)

Lemma snoc_neq {A} (l : list A) (x : A) : l ++ [x] <> l.
Proof.
  intros H. apply (f_equal length) in H. rewrite length_app in H.
  simpl in H. lia.
Qed.

(* The comparator of ram_w, as a proposition. *)
Lemma ram_w_guard s offset :
  negb (memprotect_active (m_wpc s))
  || negb (Z.land offset (get_memprotect_mask (m_wpc s))
           =? get_memprotect_mask (m_wpc s)) = false
  <-> memprotect_active (m_wpc s) = true
      /\ Z.land offset (get_memprotect_mask (m_wpc s))
         = get_memprotect_mask (m_wpc s).
Proof.
  rewrite orb_false_iff, !negb_false_iff, Z.eqb_eq. tauto.
Qed.

Lemma ram_w_blocked s offset data :
  memprotect_active (m_wpc s) = true ->
  Z.land offset (get_memprotect_mask (m_wpc s)) = get_memprotect_mask (m_wpc s) ->
  ram_w offset data s
  = logerror (LOG_protection_violation offset (get_memprotect_mask (m_wpc s))) s.
Proof.
  intros Ha Hm. unfold ram_w.
  destruct (ram_w_guard s offset) as [_ ->]; auto.
Qed.

Lemma ram_w_stored s offset data :
  ~ (memprotect_active (m_wpc s) = true
     /\ Z.land offset (get_memprotect_mask (m_wpc s))
        = get_memprotect_mask (m_wpc s)) ->
  ram_w offset data s = with_ram (<[Z.to_nat offset := data]> (m_ram s)) s.
Proof.
  intros Hn. unfold ram_w.
  destruct (negb _ || negb _) eqn:E; [reflexivity|].
  apply ram_w_guard in E. contradiction.
Qed.

(** C1. For every offset of the 0x3000-byte protected RAM and every data
    byte, ram_w drops the write (its only effect is the logged violation,
    carrying the offset and the mask) if and only if protection is enabled
    and (offset & mask) == mask.  A dropped write leaves every stored byte
    as it was.  In every other case the byte is stored, nothing is logged,
    a following ram_r of the offset returns it, and the other offsets keep
    their bytes. *)
Theorem ram_w_protection (s : wpc_an_state) (offset data : Z) :
  length (m_ram s) = Z.to_nat 0x3000 ->
  0 <= offset < 0x3000 ->
  let mask := get_memprotect_mask (m_wpc s) in
  let rejected :=
    memprotect_active (m_wpc s) = true /\ Z.land offset mask = mask in
  (ram_w offset data s = logerror (LOG_protection_violation offset mask) s
   <-> rejected)
  /\ (rejected ->
      m_ram (ram_w offset data s) = m_ram s
      /\ ram_r offset (ram_w offset data s) = ram_r offset s)
  /\ (~ rejected ->
      ram_r offset (ram_w offset data s) = data
      /\ errorlog (ram_w offset data s) = errorlog s
      /\ forall o, 0 <= o -> o <> offset ->
           ram_r o (ram_w offset data s) = ram_r o s).
Proof.
  intros Hlen Hoff mask rejected. subst mask rejected.
  split; [split|split].
  - intros Heq. unfold ram_w in Heq.
    destruct (negb _ || negb _) eqn:E.
    + apply (f_equal errorlog) in Heq. simpl in Heq.
      symmetry in Heq. by apply snoc_neq in Heq.
    + by apply ram_w_guard.
  - intros [Ha Hm]. by apply ram_w_blocked.
  - intros [Ha Hm]. by rewrite ram_w_blocked.
  - intros Hn. rewrite ram_w_stored by done. unfold ram_r. simpl.
    split; [|split; [done|]].
    + rewrite list_lookup_insert_eq; [done|]. rewrite Hlen. lia.
    + intros o Ho Hne. rewrite list_lookup_insert_ne; [done|]. lia.
Qed.

(* With mask 0x0800 and protection on: 0x0800 is blocked, 0x07ff is not. *)
Lemma ram_w_protection_witness :
  ram_r 0x0800 (ram_w 0x0800 0x5a (cold_state (rom_image 0x30000))) = 0xaa
  /\ ram_r 0x07ff (ram_w 0x07ff 0x5a (cold_state (rom_image 0x30000))) = 0x5a.
Proof.
  split.
  - refine (proj2 (proj1 (proj2
      (ram_w_protection (cold_state (rom_image 0x30000)) 0x0800 0x5a _ _)) _)).
    + vm_compute; reflexivity.
    + lia.
    + split; vm_compute; reflexivity.
  - refine (proj1 (proj2 (proj2
      (ram_w_protection (cold_state (rom_image 0x30000)) 0x07ff 0x5a _ _)) _)).
    + vm_compute; reflexivity.
    + lia.
    + intros [_ H]. vm_compute in H. discriminate H.
Defined.

(* --------------------------------------------------------------------- *)
(* What no event changes                                                  *)
(* --------------------------------------------------------------------- *)

Ltac handler_cases :=
  unfold device_timer, ram_w, wpc_rombank_w, wpc_irq_w, wpc_firq_w,
    wpc_sound_ctrl_r, wpc_sound_ctrl_w, wpc_sound_data_r, wpc_sound_data_w,
    wpc_sound_s11_w, wpcsnd_reply_w, machine_reset;
  repeat case_match; simpl.

Lemma run_invariant (P : wpc_an_state -> Prop) :
  (forall s e, P s -> P (step s e)) ->
  forall evs s, P s -> P (run s evs).
Proof.
  intros Hstep evs. induction evs as [|e evs IH]; intros s Hs; simpl.
  - exact Hs.
  - apply IH, Hstep, Hs.
Qed.

Lemma run_app s evs1 evs2 : run s (evs1 ++ evs2) = run (run s evs1) evs2.
Proof. unfold run. apply foldl_app. Qed.

Lemma step_bankmask s e : m_bankmask (step s e) = m_bankmask s.
Proof. destruct e; simpl; handler_cases; reflexivity. Qed.

Lemma step_region_maincpu s e : region_maincpu (step s e) = region_maincpu s.
Proof. destruct e; simpl; handler_cases; reflexivity. Qed.

Lemma step_bank_layout s e :
  bank_layout (m_cpubank (step s e)) = bank_layout (m_cpubank s).
Proof. destruct e; simpl; handler_cases; reflexivity. Qed.

Lemma run_bankmask s evs : m_bankmask (run s evs) = m_bankmask s.
Proof.
  apply (run_invariant (fun t => m_bankmask t = m_bankmask s)); [|done].
  intros t e Ht. by rewrite step_bankmask.
Qed.

Lemma run_region_maincpu s evs : region_maincpu (run s evs) = region_maincpu s.
Proof.
  apply (run_invariant (fun t => region_maincpu t = region_maincpu s)); [|done].
  intros t e Ht. by rewrite step_region_maincpu.
Qed.

Lemma run_bank_layout s evs :
  bank_layout (m_cpubank (run s evs)) = bank_layout (m_cpubank s).
Proof.
  apply (run_invariant
           (fun t => bank_layout (m_cpubank t) = bank_layout (m_cpubank s)));
    [|done].
  intros t e Ht. by rewrite step_bank_layout.
Qed.

Lemma init_bank_layout s :
  bank_layout (m_cpubank (init_wpc_an s)) = (0, 32, 0x10000, 0x4000).
Proof. reflexivity. Qed.

Lemma init_bankmask s :
  m_bankmask (init_wpc_an s)
  = u8 (u32 (image_size_pages (bytes (region_maincpu s)) - 1)).
Proof. reflexivity. Qed.

(* The two arrays keep their declared sizes: m_ram[0x3000] and the 32
   digits of the output finder. *)
Lemma step_ram_length s e : length (m_ram (step s e)) = length (m_ram s).
Proof.
  destruct e; simpl; handler_cases; try reflexivity. apply length_insert.
Qed.

Lemma init_ram_length s : length (m_ram (init_wpc_an s)) = Z.to_nat 0x3000.
Proof.
  change (m_ram (init_wpc_an s)) with (replicate (Z.to_nat 0x3000) 0).
  apply length_replicate.
Qed.

Lemma run_ram_length s evs : length (m_ram (run s evs)) = length (m_ram s).
Proof.
  apply (run_invariant (fun t => length (m_ram t) = length (m_ram s))); [|done].
  intros t e Ht. by rewrite step_ram_length.
Qed.

Lemma update_digits_length w d x : length (update_digits w d x) = length d.
Proof. unfold update_digits. by rewrite !length_insert. Qed.

Lemma step_digits_length s e :
  length (m_digits (step s e)) = length (m_digits s).
Proof.
  assert (Hfold : forall w xs d,
            length (foldl (update_digits w) d xs) = length d).
  { intros w xs. induction xs as [|x xs IH]; intros d; simpl; [done|].
    by rewrite IH, update_digits_length. }
  destruct e as [id| | | | | | | | | | | | | | | |];
    [|simpl; handler_cases; reflexivity ..].
  cbn [step]. unfold device_timer.
  destruct (id =? TIMER_VBLANK); [|by destruct (id =? TIMER_IRQ)].
  cbn [m_digits with_vblank_count with_wpc with_digits]. apply Hfold.
Qed.

Lemma run_digits_length s evs :
  length (m_digits (run s evs)) = length (m_digits s).
Proof.
  apply (run_invariant (fun t => length (m_digits t) = length (m_digits s)));
    [|done].
  intros t e Ht. by rewrite step_digits_length.
Qed.

(* --------------------------------------------------------------------- *)
(* ROM bank window                                                        *)
(* --------------------------------------------------------------------- *)

Lemma u8_u32 x : u8 (u32 x) = u8 x.
Proof.
  unfold u8, u32. apply Z.mod_mod_divide. exists 0x1000000. reflexivity.
Qed.

Lemma land_pow2_pred k : 0 <= k -> Z.land (2 ^ k) (2 ^ k - 1) = 0.
Proof.
  intros Hk. replace (2 ^ k - 1) with (Z.ones k)
    by (rewrite Z.ones_equiv; lia).
  rewrite Z.land_ones by done. apply Z.mod_same. lia.
Qed.

(* The mask of a power-of-two page count, and the byte that selects
   "mask + 1". *)
Lemma bankmask_pow2 k :
  0 <= k ->
  Z.land (u8 (u8 (2 ^ k - 1) + 1)) (u8 (2 ^ k - 1)) = 0.
Proof.
  intros Hk. unfold u8. destruct (Z_lt_le_dec k 8) as [Hlt|Hge].
  - assert (H1 : 0 < 2 ^ k) by lia.
    assert (H2 : 2 ^ k <= 2 ^ 7) by (apply Z.pow_le_mono_r; lia).
    change (2 ^ 7) with 128 in H2.
    rewrite (Z.mod_small (2 ^ k - 1)) by lia.
    replace (2 ^ k - 1 + 1) with (2 ^ k) by lia.
    rewrite Z.mod_small by lia. by apply land_pow2_pred.
  - replace k with (8 + (k - 8)) by lia.
    rewrite Z.pow_add_r by lia. change (2 ^ 8) with 256.
    assert (H1 : 0 < 2 ^ (k - 8)) by lia.
    replace (256 * 2 ^ (k - 8) - 1)
      with (255 + (2 ^ (k - 8) - 1) * 256) by lia.
    rewrite Z_mod_plus_full. reflexivity.
Qed.

Lemma bank_r_select s data off :
  bank_layout (m_cpubank s) = (0, 32, 0x10000, 0x4000) ->
  bank_r off (wpc_rombank_w data s)
  = base (region_maincpu s)
      (0x10000 + Z.land data (m_bankmask s) * 0x4000 + off).
Proof.
  unfold bank_layout. intros [= Hs Hc Hb Hst].
  unfold bank_r, bank_address, wpc_rombank_w. simpl.
  rewrite Hs, Hb, Hst. f_equal. lia.
Qed.

(** C2. In every state the machine reaches after init_wpc_an, a write of
    page_index to the bank-select port selects page page_index & bank_mask,
    and a read through the bank window then returns the bytes of that page
    of the image (which starts at 0x10000 in "maincpu", pages 0x4000 bytes
    apart).  When the page count of the image is a power of two, as the
    configuration requires, writing the byte bank_mask+1 is the same as
    writing 0.  With a 32-page image bank_mask is 0x1F, and whenever
    bank_mask is 0x1F, select(40) then read offset 0 gives the byte that
    select(8) then read offset 0 gives. *)
Theorem rombank_select_wraps (s0 : wpc_an_state) (evs : list event) :
  let s := run (init_wpc_an s0) evs in
  let pages := image_size_pages (bytes (region_maincpu s0)) in
  (forall page_index off,
     entry (m_cpubank (wpc_rombank_w page_index s))
     = Z.land page_index (m_bankmask s)
     /\ bank_r off (wpc_rombank_w page_index s)
        = base (region_maincpu s0)
            (0x10000 + Z.land page_index (m_bankmask s) * 0x4000 + off))
  /\ ((exists k, 0 <= k /\ pages = 2 ^ k) ->
      wpc_rombank_w (u8 (m_bankmask s + 1)) s = wpc_rombank_w 0 s)
  /\ (pages = 32 -> m_bankmask s = 0x1F)
  /\ (m_bankmask s = 0x1F ->
      bank_r 0 (wpc_rombank_w 40 s) = bank_r 0 (wpc_rombank_w 8 s)).
Proof.
  intros s pages.
  assert (Hlay : bank_layout (m_cpubank s) = (0, 32, 0x10000, 0x4000)).
  { subst s. by rewrite run_bank_layout, init_bank_layout. }
  assert (Hmask : m_bankmask s = u8 (u32 (pages - 1))).
  { subst s pages. by rewrite run_bankmask, init_bankmask. }
  assert (Hrom : region_maincpu s = region_maincpu s0).
  { subst s. by rewrite run_region_maincpu. }
  split; [|split; [|split]].
  - intros page_index off. split; [reflexivity|].
    rewrite bank_r_select by done. by rewrite Hrom.
  - intros (k & Hk & Hp). unfold wpc_rombank_w.
    rewrite Hmask, Hp, u8_u32, bankmask_pow2 by done.
    by rewrite Z.land_0_l.
  - intros Hp. rewrite Hmask, Hp. reflexivity.
  - intros Hm. rewrite !bank_r_select by done. rewrite Hm. reflexivity.
Qed.

(* Funhouse 9.05H has 32 pages: after some bank switching and a reset,
   page 40 is page 8, and page 32 is page 0. *)
Lemma rombank_select_wraps_witness :
  let s := run fh_905h [ev_rombank_w 5; ev_timer 1; ev_machine_reset] in
  bank_r 0 (wpc_rombank_w 40 s) = bank_r 0 (wpc_rombank_w 8 s)
  /\ wpc_rombank_w (u8 (m_bankmask s + 1)) s = wpc_rombank_w 0 s.
Proof.
  pose proof (rombank_select_wraps (wpc_an (cold_state (rom_image 0x90000)))
                [ev_rombank_w 5; ev_timer 1; ev_machine_reset])
    as (_ & Hwrap & H32 & Hscen).
  split.
  - apply Hscen, H32. vm_compute; reflexivity.
  - apply Hwrap. exists 5. split; [lia | vm_compute; reflexivity].
Defined.

(* --------------------------------------------------------------------- *)
(* Tick interrupt line                                                    *)
(* --------------------------------------------------------------------- *)

(* Only an IRQ timer fire or a write to the clear port moves the line. *)
Lemma step_tick_line s e :
  is_tick_fire e = false -> is_irq_clear e = false ->
  tick_line (step s e) = tick_line s.
Proof.
  unfold tick_line. intros Hf Hc.
  destruct e; simpl in *; handler_cases; try reflexivity; congruence.
Qed.

(* Without a fire the line never leaves CLEAR_LINE. *)
Lemma step_tick_line_clear s e :
  is_tick_fire e = false -> tick_line s = CLEAR_LINE ->
  tick_line (step s e) = CLEAR_LINE.
Proof.
  intros Hf Hs. destruct (is_irq_clear e) eqn:Hc.
  - destruct e; try discriminate Hc. reflexivity.
  - by rewrite step_tick_line.
Qed.

Lemma run_tick_line_clear evs : forall s,
  Forall (fun e => is_tick_fire e = false) evs ->
  tick_line s = CLEAR_LINE ->
  tick_line (run s evs) = CLEAR_LINE.
Proof.
  induction evs as [|e evs IH]; intros s Hall Hs; simpl; [done|].
  inversion Hall as [|? ? He Hrest]; subst.
  apply IH; [done|]. by apply step_tick_line_clear.
Qed.

(** C3. The tick interrupt line is a two-state machine.  A fire of the IRQ
    timer asserts it.  One write to the clear port clears it, whatever value
    is written.  Every event that is neither leaves the line as it is, so
    after a clear-port write the line stays clear through any sequence of
    events without an IRQ timer fire, the next fire asserts it again, and a
    line found asserted after an event was asserted before it or the event
    was an IRQ timer fire. *)
Theorem tick_line_state_machine (s : wpc_an_state) :
  tick_line (device_timer TIMER_IRQ s) = ASSERT_LINE
  /\ (forall v, tick_line (wpc_irq_w v s) = CLEAR_LINE)
  /\ (forall e, is_tick_fire e = false -> is_irq_clear e = false ->
        tick_line (step s e) = tick_line s)
  /\ (forall v evs,
        Forall (fun e => is_tick_fire e = false) evs ->
        tick_line (run (wpc_irq_w v s) evs) = CLEAR_LINE
        /\ tick_line (step (run (wpc_irq_w v s) evs) (ev_timer TIMER_IRQ))
           = ASSERT_LINE)
  /\ (forall e, tick_line (step s e) = ASSERT_LINE ->
        tick_line s = ASSERT_LINE \/ is_tick_fire e = true).
Proof.
  split; [reflexivity|]. split; [reflexivity|].
  split; [by apply step_tick_line|]. split.
  - intros v evs Hall. split; [|reflexivity].
    by apply run_tick_line_clear.
  - intros e He. destruct (is_tick_fire e) eqn:Hf; [by right|left].
    destruct (tick_line s) eqn:Hs; [|done].
    rewrite step_tick_line_clear in He; done.
Qed.

(* The line is asserted by a fire, cleared by a write of 0x55, and still
   clear after RAM, bank, sound and frame-timer activity and a reset. *)
Lemma tick_line_state_machine_witness :
  tick_line (run (wpc_irq_w 0x55 (device_timer TIMER_IRQ fh_905h))
               [ev_ram_w 0x10 1; ev_rombank_w 3; ev_timer TIMER_VBLANK;
                ev_sound_data_w 9; ev_firq_w 1; ev_wpcsnd_reply_w 1;
                ev_machine_reset; ev_ram_r 0x10])
  = CLEAR_LINE.
Proof.
  refine (proj1 (proj1 (proj2 (proj2 (proj2
    (tick_line_state_machine (device_timer TIMER_IRQ fh_905h))))) 0x55 _ _)).
  repeat constructor.
Defined.

(* --------------------------------------------------------------------- *)
(* The segment reordering                                                 *)
(* --------------------------------------------------------------------- *)

Lemma BIT_b2z x n : 0 <= n -> BIT x n = Z.b2z (Z.testbit x n).
Proof.
  intros Hn. unfold BIT. change 1 with (Z.ones 1).
  rewrite Z.land_ones by lia. rewrite Z.shiftr_div_pow2 by lia.
  symmetry. by apply Z.testbit_spec'.
Qed.

Lemma testbit_b2z_shiftl (t : bool) n i :
  0 <= n -> 0 <= i ->
  Z.testbit (Z.shiftl (Z.b2z t) n) i = t && (i =? n).
Proof.
  intros Hn Hi. rewrite Z.shiftl_spec by done.
  destruct (Z.eqb_spec i n) as [->|Hne].
  - rewrite Z.sub_diag, Z.b2z_bit0. by rewrite andb_true_r.
  - rewrite andb_false_r. destruct (Z_lt_le_dec i n).
    + apply Z.testbit_neg_r. lia.
    + destruct t; simpl.
      * change 1 with (2 ^ 0). apply Z.pow2_bits_false. lia.
      * apply Z.bits_0.
Qed.

(* Output bit [i] of bitswap is the input bit named by the selector that
   stands [i] places from the end of the list. *)
Lemma testbit_bitswap val b : forall i,
  Forall (fun j => 0 <= j) b ->
  Z.testbit (bitswap val b) (Z.of_nat i)
  = match rev b !! i with
    | Some j => Z.testbit val j
    | None => false
    end.
Proof.
  induction b as [|b0 c IH]; intros i Hb; simpl.
  - by rewrite Z.bits_0.
  - inversion Hb as [|? ? Hb0 Hc]; subst.
    rewrite Z.lor_spec, BIT_b2z, testbit_b2z_shiftl, IH by lia || done.
    destruct (decide (i < length c)%nat) as [Hlt|Hge].
    + rewrite lookup_app_l by (by rewrite length_rev).
      replace (Z.of_nat i =? Z.of_nat (length c)) with false by lia.
      by rewrite andb_false_r.
    + rewrite lookup_app_r by (rewrite length_rev; lia).
      rewrite (lookup_ge_None_2 (rev c)) by (rewrite length_rev; lia).
      rewrite orb_false_r, length_rev.
      destruct (decide (i = length c)) as [->|Hne].
      * rewrite Nat.sub_diag, Z.eqb_refl. simpl. by rewrite andb_true_r.
      * replace (Z.of_nat i =? Z.of_nat (length c)) with false by lia.
        rewrite andb_false_r.
        destruct (i - length c)%nat eqn:E; [lia|]. reflexivity.
Qed.

Lemma testbit_bitswap_Z val b n j :
  Forall (fun j => 0 <= j) b -> 0 <= n ->
  rev b !! Z.to_nat n = Some j ->
  Z.testbit (bitswap val b) n = Z.testbit val j.
Proof.
  intros Hb Hn Hj. rewrite <- (Z2Nat.id n) at 1 by done.
  by rewrite testbit_bitswap, Hj.
Qed.

Lemma testbit_bitswap_high val b n :
  Forall (fun j => 0 <= j) b -> Z.of_nat (length b) <= n ->
  Z.testbit (bitswap val b) n = false.
Proof.
  intros Hb Hn. rewrite <- (Z2Nat.id n) by lia.
  rewrite testbit_bitswap by done.
  rewrite lookup_ge_None_2; [done|]. rewrite length_rev. lia.
Qed.

Lemma segment_order_nonneg : Forall (fun j => 0 <= j) segment_order.
Proof. unfold segment_order. repeat constructor; lia. Qed.

Lemma segment_inverse_nonneg : Forall (fun j => 0 <= j) segment_inverse.
Proof. unfold segment_inverse. repeat constructor; lia. Qed.

Lemma testbit_u16_high v n : 0 <= v < 0x10000 -> 16 <= n -> Z.testbit v n = false.
Proof.
  intros Hv Hn. rewrite <- (Z.mod_small v (2 ^ 16)) by done.
  apply Z.mod_pow2_bits_high. lia.
Qed.

Lemma bitswap_u16 v b :
  Forall (fun j => 0 <= j) b -> length b = 16%nat ->
  0 <= bitswap v b < 0x10000.
Proof.
  intros Hb Hl.
  assert (H0 : 0 <= bitswap v b).
  { apply Z.bits_iff_nonneg_ex. exists 16. intros m Hm.
    apply testbit_bitswap_high; [done|]. rewrite Hl. lia. }
  split; [done|].
  destruct (Z.eq_dec (bitswap v b) 0) as [->|Hne]; [lia|].
  change 0x10000 with (2 ^ 16). apply Z.log2_lt_pow2; [lia|].
  destruct (Z_lt_le_dec (Z.log2 (bitswap v b)) 16) as [|Hge]; [done|].
  assert (Ht : Z.testbit (bitswap v b) (Z.log2 (bitswap v b)) = true)
    by (apply Z.bit_log2; lia).
  rewrite testbit_bitswap_high in Ht; [done|done|]. rewrite Hl. lia.
Qed.

Lemma segment_inverse_cancel v :
  0 <= v < 0x10000 ->
  bitswap (bitswap v segment_order) segment_inverse = v.
Proof.
  intros Hv. apply Z.bits_inj'. intros n Hn.
  destruct (Z_lt_le_dec n 16) as [Hlt|Hge].
  - assert (Hk : (Z.to_nat n < 16)%nat) by lia.
    rewrite <- (Z2Nat.id n) by done.
    generalize dependent (Z.to_nat n). clear n Hn Hlt. intros k Hk.
    do 16 (destruct k as [|k];
           [erewrite (testbit_bitswap_Z _ segment_inverse);
              [|apply segment_inverse_nonneg|lia|reflexivity];
            erewrite (testbit_bitswap_Z _ segment_order);
              [|apply segment_order_nonneg|lia|reflexivity];
            reflexivity|]).
    lia.
  - rewrite testbit_bitswap_high, testbit_u16_high; try done.
    apply segment_inverse_nonneg.
Qed.

Lemma vblank_digits w (d : list Z) :
  length d = 32%nat ->
  foldl (update_digits w) d (seqZ 0 16)
  = (fun i => bitswap (get_alphanumeric (digit_source i) w) segment_order)
      <$> seqZ 0 32.
Proof.
  intros H. do 33 (destruct d as [|? d]; try discriminate H). reflexivity.
Qed.

(* --------------------------------------------------------------------- *)
(* Frame timer                                                            *)
(* --------------------------------------------------------------------- *)

Lemma device_timer_vblank_digits s :
  length (m_digits s) = 32%nat ->
  m_digits (device_timer TIMER_VBLANK s)
  = (fun i => bitswap (get_alphanumeric (digit_source i) (m_wpc s)) segment_order)
      <$> seqZ 0 32.
Proof. intros Hlen. unfold device_timer. simpl. by apply vblank_digits. Qed.

Lemma device_timer_vblank_digit s i :
  length (m_digits s) = 32%nat -> 0 <= i < 32 ->
  m_digits (device_timer TIMER_VBLANK s) !! Z.to_nat i
  = Some (bitswap (get_alphanumeric (digit_source i) (m_wpc s)) segment_order).
Proof.
  intros Hlen Hi. rewrite device_timer_vblank_digits by done.
  rewrite list_lookup_fmap, lookup_seqZ_lt by lia.
  replace (0 + Z.of_nat (Z.to_nat i)) with i by lia. reflexivity.
Qed.

Lemma get_alphanumeric_reset x w :
  get_alphanumeric x (reset_alphanumeric w) = 0.
Proof.
  unfold get_alphanumeric, reset_alphanumeric. simpl.
  destruct (replicate _ _ !! _) as [v|] eqn:E; [|done].
  apply lookup_replicate in E as [-> _]. done.
Qed.

(* Only a frame-timer fire writes the digits. *)
Lemma step_digits s e :
  is_frame_fire e = false -> m_digits (step s e) = m_digits s.
Proof.
  intros Hf. destruct e; simpl in *; handler_cases; try reflexivity; congruence.
Qed.

Lemma run_digits evs : forall s,
  Forall (fun e => is_frame_fire e = false) evs ->
  m_digits (run s evs) = m_digits s.
Proof.
  induction evs as [|e evs IH]; intros s Hall; simpl; [done|].
  inversion Hall as [|? ? He Hrest]; subst.
  rewrite IH by done. by apply step_digits.
Qed.

(** C4. On a frame-timer fire each of the 32 display cells receives the
    raw alphanumeric pattern of its source cell passed through the fixed
    segment reordering, which is a permutation of the 16 bits (it keeps a
    pattern in 16 bits and has an inverse).  Then the raw store reads as
    zero everywhere, and the 16-bit frame counter has advanced by one.
    Until the next frame fire no event, a write to the raw store included,
    changes the 32 cells. *)
Theorem frame_timer_refresh (s : wpc_an_state) :
  length (m_digits s) = 32%nat ->
  let s' := device_timer TIMER_VBLANK s in
  (forall i, 0 <= i < 32 ->
     m_digits s' !! Z.to_nat i
     = Some (bitswap (get_alphanumeric (digit_source i) (m_wpc s))
               segment_order))
  /\ (forall v, 0 <= v < 0x10000 ->
        0 <= bitswap v segment_order < 0x10000
        /\ bitswap (bitswap v segment_order) segment_inverse = v)
  /\ (forall x, get_alphanumeric x (m_wpc s') = 0)
  /\ m_vblank_count s' = u16 (m_vblank_count s + 1)
  /\ (0 <= m_vblank_count s < 0xffff ->
      m_vblank_count s' = m_vblank_count s + 1)
  /\ (forall evs, Forall (fun e => is_frame_fire e = false) evs ->
        m_digits (run s' evs) = m_digits s').
Proof.
  intros Hlen s'. subst s'.
  split; [intros i Hi; by apply device_timer_vblank_digit|].
  split.
  { intros v Hv. split; [|by apply segment_inverse_cancel].
    apply bitswap_u16; [apply segment_order_nonneg | reflexivity]. }
  split; [intros x; apply get_alphanumeric_reset|].
  split; [reflexivity|].
  split.
  { intros Hc. unfold device_timer. simpl. unfold u16.
    rewrite Z.mod_small; lia. }
  intros evs Hall. by apply run_digits.
Qed.

(* Funhouse: raw cell 21 holds 0x1616; after a fire digit 17 shows its
   reordering 0x3116 and keeps it through raw-store writes and a reset. *)
Lemma frame_timer_refresh_witness :
  let s' := device_timer TIMER_VBLANK fh_905h in
  m_digits s' !! 17%nat = Some 0x3116
  /\ m_digits (run s' [ev_wpc_alphanumeric_w 21 0xffff; ev_machine_reset;
                       ev_timer TIMER_IRQ]) = m_digits s'.
Proof.
  pose proof (frame_timer_refresh fh_905h eq_refl) as (Hd & _ & _ & _ & _ & Hk).
  split.
  - apply (Hd 17). lia.
  - apply Hk. repeat constructor.
Defined.

(** C10. On every frame-timer fire output digits 0 to 15 are filled from raw
    alphanumeric cells 0 to 15 and output digits 16 to 31 from raw cells 20
    to 35.  Raw cells 16 to 19 are copied to no digit: two machines whose
    raw stores agree on every cell outside 16..19 show the same 32 digits
    after the fire, whatever their digits were before. *)
Theorem frame_timer_cell_mapping (s : wpc_an_state) :
  length (m_digits s) = 32%nat ->
  let s' := device_timer TIMER_VBLANK s in
  (forall x, 0 <= x < 16 ->
     m_digits s' !! Z.to_nat x
     = Some (bitswap (get_alphanumeric x (m_wpc s)) segment_order)
     /\ m_digits s' !! Z.to_nat (x + 16)
        = Some (bitswap (get_alphanumeric (20 + x) (m_wpc s)) segment_order))
  /\ length (m_digits s') = 32%nat
  /\ (forall t, length (m_digits t) = 32%nat ->
        (forall x, ~ 16 <= x < 20 ->
           get_alphanumeric x (m_wpc t) = get_alphanumeric x (m_wpc s)) ->
        m_digits (device_timer TIMER_VBLANK t) = m_digits s').
Proof.
  intros Hlen s'. subst s'. split; [|split].
  - intros x Hx. rewrite !device_timer_vblank_digit by lia.
    unfold digit_source.
    replace (x <? 16) with true by lia.
    replace (x + 16 <? 16) with false by lia.
    split; [done|]. do 3 f_equal. lia.
  - by rewrite device_timer_vblank_digits.
  - intros t Ht Hagree. rewrite !device_timer_vblank_digits by done.
    apply list_fmap_ext. intros k i Hi.
    apply lookup_seqZ in Hi as [-> Hk]. f_equal.
    apply Hagree. unfold digit_source. case_match; lia.
Qed.

(* Funhouse: digit 3 shows raw cell 3, digit 19 shows raw cell 23, and a
   write to raw cell 17 before the fire changes no digit. *)
Lemma frame_timer_cell_mapping_witness :
  let s' := device_timer TIMER_VBLANK fh_905h in
  (m_digits s' !! 3%nat = Some (bitswap 0x0404 segment_order)
   /\ m_digits s' !! 19%nat = Some (bitswap 0x1818 segment_order))
  /\ m_digits (device_timer TIMER_VBLANK
                 (step fh_905h (ev_wpc_alphanumeric_w 17 0xffff)))
     = m_digits s'.
Proof.
  pose proof (frame_timer_cell_mapping fh_905h eq_refl) as (Hd & _ & Hi).
  split.
  - apply (Hd 3). lia.
  - apply Hi; [reflexivity|].
    intros x Hx. unfold get_alphanumeric.
    change (alpha_data (m_wpc (step fh_905h (ev_wpc_alphanumeric_w 17 0xffff))))
      with (<[Z.to_nat 17 := 0xffff]> (alpha_data (m_wpc fh_905h))).
    rewrite list_lookup_insert_ne; [done|]. lia.
Defined.

(* --------------------------------------------------------------------- *)
(* Sound link                                                             *)
(* --------------------------------------------------------------------- *)

(* data_write on the strobe board does not raise the strobe again: on
   Dr. Dude the board receives the byte and a single ctrl_w(0). *)
Lemma sound_data_w_strobe_counterexample :
  (bg_calls <$> m_bg (wpc_sound_data_w 0x42 dd_p7))
  = Some [data_w 0x42; ctrl_w 0]
  /\ (bg_calls <$> m_bg (wpc_sound_data_w 0x42 dd_p7))
     <> Some [data_w 0x42; ctrl_w 0; ctrl_w 1].
Proof. split; [reflexivity | discriminate]. Qed.

(** C5 (amended). With the strobe board present (variant B), data_write
    pushes the byte and drives the strobe control line low only, ctrl_write
    pushes its byte and drives the line high only (the trailing edge), and
    the write that pushes a byte and toggles the line low-then-high is the
    separate S11 port.  A data_write followed by a ctrl_write therefore ends
    with the line high again. *)
Theorem sound_strobe_edges (s : wpc_an_state) (bg : s11c_bg_device) (data : Z) :
  m_bg s = Some bg ->
  (bg_calls <$> m_bg (wpc_sound_data_w data s))
  = Some (bg_calls bg ++ [data_w data; ctrl_w 0])
  /\ (bg_calls <$> m_bg (wpc_sound_ctrl_w data s))
     = Some (bg_calls bg ++ [data_w data; ctrl_w 1])
  /\ (bg_calls <$> m_bg (wpc_sound_s11_w data s))
     = Some (bg_calls bg ++ [data_w data; ctrl_w 0; ctrl_w 1])
  /\ m_wpcsnd (wpc_sound_data_w data s) = m_wpcsnd s
  /\ m_wpcsnd (wpc_sound_ctrl_w data s) = m_wpcsnd s
  /\ m_wpcsnd (wpc_sound_s11_w data s) = m_wpcsnd s.
Proof.
  intros Hbg.
  unfold wpc_sound_data_w, wpc_sound_ctrl_w, wpc_sound_s11_w, bg_call.
  rewrite Hbg. simpl. rewrite <- !app_assoc. simpl. done.
Qed.

Lemma sound_strobe_edges_witness :
  (bg_calls <$> m_bg (wpc_sound_ctrl_w 0x42 dd_p7))
  = Some [data_w 0x42; ctrl_w 1]
  /\ (bg_calls <$> m_bg (wpc_sound_s11_w 0x42 dd_p7))
     = Some [data_w 0x42; ctrl_w 0; ctrl_w 1].
Proof.
  pose proof (sound_strobe_edges dd_p7 {| bg_calls := [] |} 0x42 eq_refl)
    as (_ & Hc & Hs & _).
  split; [exact Hc | exact Hs].
Defined.

(* Which boards a machine has is fixed by its configuration. *)
Lemma step_wpcsnd_absent s e : m_wpcsnd s = None -> m_wpcsnd (step s e) = None.
Proof.
  intros H. destruct e; simpl; handler_cases; try done; congruence.
Qed.

Lemma run_wpcsnd_absent evs : forall s,
  m_wpcsnd s = None -> m_wpcsnd (run s evs) = None.
Proof.
  intros s Hs. apply (run_invariant (fun t => m_wpcsnd t = None)); [|done].
  intros t e Ht. by apply step_wpcsnd_absent.
Qed.

(** C6. In a machine configured with the strobe board (variant B, no WPC
    sound board), ctrl_read and data_read return zero and change nothing.
    The machine built by wpc_an_dd is such a machine in every state it
    reaches after init_wpc_an. *)
Theorem sound_reads_zero_without_reply_channel (s : wpc_an_state) :
  (m_wpcsnd s = None ->
   wpc_sound_ctrl_r s = (0, s) /\ wpc_sound_data_r s = (0, s))
  /\ (forall evs,
        let t := run (init_wpc_an (wpc_an_dd s)) evs in
        m_wpcsnd t = None
        /\ fst (wpc_sound_ctrl_r t) = 0 /\ fst (wpc_sound_data_r t) = 0).
Proof.
  assert (H : forall t, m_wpcsnd t = None ->
            wpc_sound_ctrl_r t = (0, t) /\ wpc_sound_data_r t = (0, t)).
  { intros t Ht. unfold wpc_sound_ctrl_r, wpc_sound_data_r.
    by rewrite Ht. }
  split; [apply H|]. intros evs t.
  assert (Ht : m_wpcsnd t = None) by (by apply run_wpcsnd_absent).
  destruct (H t Ht) as [-> ->]. done.
Qed.

Lemma sound_reads_zero_without_reply_channel_witness :
  wpc_sound_ctrl_r dd_p7 = (0, dd_p7) /\ wpc_sound_data_r dd_p7 = (0, dd_p7).
Proof.
  apply (proj1 (sound_reads_zero_without_reply_channel dd_p7)).
  reflexivity.
Defined.

(* --------------------------------------------------------------------- *)
(* Reset and configuration                                                *)
(* --------------------------------------------------------------------- *)

(* A byte written before a reset is still in the RAM after it. *)
Lemma machine_reset_ram_counterexample :
  ram_r 0x100 (machine_reset (ram_w 0x100 0x55 fh_905h)) = 0x55
  /\ m_ram (machine_reset (ram_w 0x100 0x55 fh_905h))
     <> replicate (Z.to_nat 0x3000) 0.
Proof.
  split; [vm_compute; reflexivity|].
  intros H. apply (f_equal (fun l => l !! 0x100%nat)) in H.
  vm_compute in H. discriminate H.
Qed.

(** C7 (amended). Machine reset forces the selected ROM bank page to 0, for
    every pre-reset state, and clears the two counters; it leaves the
    protected RAM buffer exactly as it was.  The buffer is zeroed once, by
    init_wpc_an at configuration, which also selects page 0. *)
Theorem machine_reset_effect (s : wpc_an_state) :
  entry (m_cpubank (machine_reset s)) = 0
  /\ m_vblank_count (machine_reset s) = 0
  /\ m_irq_count (machine_reset s) = 0
  /\ m_ram (machine_reset s) = m_ram s
  /\ (forall offset, ram_r offset (machine_reset s) = ram_r offset s)
  /\ m_ram (init_wpc_an s) = replicate (Z.to_nat 0x3000) 0
  /\ (forall offset, ram_r offset (init_wpc_an s) = 0)
  /\ entry (m_cpubank (init_wpc_an s)) = 0.
Proof.
  do 6 (split; [reflexivity|]). split; [|reflexivity].
  intros offset. unfold ram_r.
  change (m_ram (init_wpc_an s)) with (replicate (Z.to_nat 0x3000) 0).
  destruct (replicate _ _ !! _) as [v|] eqn:E; [|done].
  apply lookup_replicate in E as [-> _]. done.
Qed.

(** C9. init_wpc_an computes bank_mask as image_size_pages - 1, where
    image_size_pages is the number of 0x4000-byte pages of "maincpu" past
    its first 0x10000 bytes; the result is kept in 8 bits, so it is exactly
    pages - 1 for 1 to 256 pages.  The value is computed at configuration
    only: no later event changes it.  Nothing checks the page count: the
    same formula gives the mask for every region size, power of two or
    not, and the mask is reported in the log. *)
Theorem bankmask_computed_at_init (s0 : wpc_an_state) :
  let nbytes := bytes (region_maincpu s0) in
  let pages := image_size_pages nbytes in
  m_bankmask (init_wpc_an s0) = u8 (u32 (pages - 1))
  /\ (0x10000 <= nbytes < 0x100000000 ->
      pages = (nbytes - 0x10000) `div` 0x4000)
  /\ (1 <= pages <= 256 -> m_bankmask (init_wpc_an s0) = pages - 1)
  /\ (forall evs,
        m_bankmask (run (init_wpc_an s0) evs) = m_bankmask (init_wpc_an s0))
  /\ errorlog (init_wpc_an s0)
     = errorlog s0 ++ [LOG_bank_mask (m_bankmask (init_wpc_an s0))].
Proof.
  intros nbytes pages. split; [reflexivity|]. split; [|split; [|split]].
  - intros Hb. subst pages. unfold image_size_pages, u32.
    rewrite Z.mod_small by lia. by rewrite Z.shiftr_div_pow2.
  - intros Hp. rewrite init_bankmask. fold nbytes. fold pages.
    rewrite u8_u32. unfold u8. change 0x100 with 256.
    destruct (Z.eq_dec pages 256) as [->|Hne]; [reflexivity|].
    rewrite Z.mod_small; lia.
  - intros evs. apply run_bankmask.
  - reflexivity.
Qed.

(* Funhouse 9.05H: 32 pages, mask 0x1f.  A 3-page image is accepted as
   well and gets the mask 2. *)
Lemma bankmask_computed_at_init_witness :
  m_bankmask fh_905h = 0x1f /\ m_bankmask three_pages = 2.
Proof.
  split.
  - refine (eq_trans (proj1 (proj2 (proj2 (bankmask_computed_at_init
      (wpc_an (cold_state (rom_image 0x90000)))))) _) _).
    + vm_compute. split; discriminate.
    + reflexivity.
  - refine (eq_trans (proj1 (proj2 (proj2 (bankmask_computed_at_init
      (wpc_an (cold_state (rom_image 0x1c000)))))) _) _).
    + vm_compute. split; discriminate.
    + reflexivity.
Defined.

(* Every ROM set of the driver has a power-of-two page count. *)
Lemma rom_sets_power_of_two :
  Forall (fun n => exists k, 0 <= k /\ image_size_pages n = 2 ^ k)
    maincpu_region_sizes.
Proof.
  unfold maincpu_region_sizes.
  repeat constructor; [exists 3 | exists 4 | exists 5]; by split.
Qed.

(* --------------------------------------------------------------------- *)
(* Address map                                                            *)
(* --------------------------------------------------------------------- *)

(* 0x3000 belongs to the plain RAM range, which is none of the four
   components, and the map has five ranges rather than four. *)
Lemma address_map_counterexample :
  (bound_to <$> owners 0x3000) = [ram]
  /\ (forall c, handler_of c <> ram)
  /\ (bound_to <$> wpc_an_map)
     <> (handler_of <$>
           [ProtectedRam; RegisterWindow; BankWindow; FixedUpperRom]).
Proof.
  split; [reflexivity|]. split; [|discriminate].
  intros c. destruct c; discriminate.
Qed.

Ltac range_facts :=
  repeat match goal with
    | H : in_range _ _ = true |- _ =>
        unfold in_range in H; simpl in H;
        apply andb_true_iff in H as [?%Z.leb_le ?%Z.leb_le]
    | H : ~ in_range _ _ = true |- _ =>
        unfold in_range in H; simpl in H;
        rewrite andb_true_iff, !Z.leb_le in H
    end.

Lemma owners_unique a :
  0 <= a <= 0xffff -> exists e, owners a = [e].
Proof.
  intros Ha. unfold owners, wpc_an_map.
  rewrite !filter_cons, filter_nil.
  repeat case_decide; range_facts; try lia; by eexists.
Qed.

Lemma owners_in_domain a : owners a <> [] -> 0 <= a <= 0xffff.
Proof.
  unfold owners, wpc_an_map. rewrite !filter_cons, filter_nil.
  repeat case_decide; range_facts; try lia; done.
Qed.

Lemma wpc_an_map_disjoint e1 e2 :
  e1 ∈ wpc_an_map -> e2 ∈ wpc_an_map -> e1 <> e2 -> disjoint e1 e2.
Proof.
  unfold wpc_an_map. rewrite !elem_of_cons, !elem_of_nil.
  intros H1 H2 Hne. unfold disjoint.
  destruct H1 as [->|[->|[->|[->|[->|[]]]]]];
    destruct H2 as [->|[->|[->|[->|[->|[]]]]]];
    simpl; try lia; congruence.
Qed.

(** C8 (amended). The address map is a list of five pairwise-disjoint byte
    ranges, each bound to one handler, that together cover exactly the
    16-bit address domain, in the order: protected RAM (0x0000-0x2fff),
    plain unprotected RAM (0x3000-0x3faf), register window (0x3fb0-0x3fff),
    bank window (0x4000-0x7fff), fixed upper ROM (0x8000-0xffff).  Every
    16-bit address lies in exactly one range, the one of its owning
    component. *)
Theorem address_map_partition :
  (forall e1 e2, e1 ∈ wpc_an_map -> e2 ∈ wpc_an_map -> e1 <> e2 ->
     disjoint e1 e2)
  /\ (forall a, 0 <= a <= 0xffff -> exists e, owners a = [e])
  /\ (forall a, owners a <> [] -> 0 <= a <= 0xffff)
  /\ (bound_to <$> wpc_an_map)
     = [handler_of ProtectedRam; ram; handler_of RegisterWindow;
        handler_of BankWindow; handler_of FixedUpperRom]
  /\ ((fun e => (addrstart e, addrend e)) <$> wpc_an_map)
     = [(0x0000, 0x2fff); (0x3000, 0x3faf); (0x3fb0, 0x3fff);
        (0x4000, 0x7fff); (0x8000, 0xffff)].
Proof.
  split; [apply wpc_an_map_disjoint|].
  split; [apply owners_unique|].
  split; [apply owners_in_domain|].
  split; reflexivity.
Qed.

Lemma address_map_partition_witness :
  (exists e, owners 0x3fb0 = [e])
  /\ disjoint {| addrstart := 0x3000; addrend := 0x3faf; bound_to := ram |}
       {| addrstart := 0x3fb0; addrend := 0x3fff; bound_to := rw_wpc |}.
Proof.
  pose proof address_map_partition as (Hd & Hu & _).
  split.
  - apply Hu. lia.
  - apply Hd.
    + unfold wpc_an_map. rewrite !elem_of_cons. auto.
    + unfold wpc_an_map. rewrite !elem_of_cons. auto.
    + discriminate.
Defined.

(* ===================================================================== *)
(* Wider properties of the handlers                                       *)
(* ===================================================================== *)

(* --------------------------------------------------------------------- *)
(* FIRQ line                                                              *)
(* --------------------------------------------------------------------- *)

Lemma step_firq_state s e :
  is_firq_event e = false -> firq_state (step s e) = firq_state s.
Proof.
  unfold firq_state. intros Hf.
  destruct e; simpl in *; handler_cases; try reflexivity; congruence.
Qed.

Lemma step_firq_state_clear s e :
  is_reply_event e = false -> firq_state s = CLEAR_LINE ->
  firq_state (step s e) = CLEAR_LINE.
Proof.
  intros Hr Hs. destruct (is_firq_event e) eqn:Hf.
  - destruct e; try discriminate Hf; try discriminate Hr. reflexivity.
  - by rewrite step_firq_state.
Qed.

Lemma run_firq_state_clear evs : forall s,
  Forall (fun e => is_reply_event e = false) evs ->
  firq_state s = CLEAR_LINE ->
  firq_state (run s evs) = CLEAR_LINE.
Proof.
  induction evs as [|e evs IH]; intros s Hall Hs; simpl; [done|].
  inversion Hall as [|? ? He Hrest]; subst.
  apply IH; [done|]. by apply step_firq_state_clear.
Qed.

(** X1. The FIRQ line: wpcsnd_reply_w asserts it when its argument is
    nonzero and does nothing at all when it is zero; wpc_firq_w clears it
    whatever its argument; neither touches the IRQ line; no other event
    moves the FIRQ line, so once cleared it stays clear until the next
    reply signal. *)
Theorem firq_line_state_machine (s : wpc_an_state) :
  (forall state, state <> 0 ->
     firq_state (wpcsnd_reply_w state s) = ASSERT_LINE
     /\ tick_line (wpcsnd_reply_w state s) = tick_line s)
  /\ wpcsnd_reply_w 0 s = s
  /\ (forall state,
        firq_state (wpc_firq_w state s) = CLEAR_LINE
        /\ tick_line (wpc_firq_w state s) = tick_line s)
  /\ (forall e, is_firq_event e = false ->
        firq_state (step s e) = firq_state s)
  /\ (forall state evs,
        Forall (fun e => is_reply_event e = false) evs ->
        firq_state (run (wpc_firq_w state s) evs) = CLEAR_LINE).
Proof.
  split; [|split; [reflexivity|split; [by intros|split]]].
  - intros state Hne. unfold wpcsnd_reply_w.
    destruct (Z.eqb_spec state 0); [done|]. by split.
  - apply step_firq_state.
  - intros state evs Hall. by apply run_firq_state_clear.
Qed.

Lemma firq_line_state_machine_witness :
  firq_state (wpcsnd_reply_w 1 fh_905h) = ASSERT_LINE
  /\ firq_state (run (wpc_firq_w 0 (wpcsnd_reply_w 1 fh_905h))
                   [ev_timer TIMER_IRQ; ev_irq_w 0; ev_machine_reset;
                    ev_sound_data_r; ev_firq_w 1])
     = CLEAR_LINE.
Proof.
  split.
  - refine (proj1 (proj1 (firq_line_state_machine fh_905h) 1 _)). lia.
  - refine (proj2 (proj2 (proj2 (proj2
      (firq_line_state_machine (wpcsnd_reply_w 1 fh_905h))))) 0 _ _).
    repeat constructor.
Defined.

(* --------------------------------------------------------------------- *)
(* Fixed region and bank pages                                            *)
(* --------------------------------------------------------------------- *)

Lemma step_region_fixed s e : region_fixed (step s e) = region_fixed s.
Proof. destruct e; simpl; handler_cases; reflexivity. Qed.

Lemma run_region_fixed s evs : region_fixed (run s evs) = region_fixed s.
Proof.
  apply (run_invariant (fun t => region_fixed t = region_fixed s)); [|done].
  intros t e Ht. by rewrite step_region_fixed.
Qed.

Lemma init_fixed_r s i :
  fixed_r i (init_wpc_an s)
  = if (0 <=? i) && (i <? 0x8000)
    then base (region_maincpu s) (u32 (bytes (region_maincpu s) - 0x8000) + i)
    else base (region_fixed s) i.
Proof. reflexivity. Qed.

Lemma run_init_fixed_tail s0 evs i :
  0x8000 <= bytes (region_maincpu s0) < 0x100000000 ->
  0 <= i < 0x8000 ->
  fixed_r i (run (init_wpc_an s0) evs)
  = base (region_maincpu s0) (bytes (region_maincpu s0) - 0x8000 + i).
Proof.
  intros Hn Hi. unfold fixed_r at 1. rewrite run_region_fixed.
  fold (fixed_r i (init_wpc_an s0)). rewrite init_fixed_r.
  replace ((0 <=? i) && (i <? 0x8000)) with true by lia.
  unfold u32. rewrite Z.mod_small by lia. reflexivity.
Qed.

(** X2. init_wpc_an fills the 0x8000 bytes of "fixed" with the last 0x8000
    bytes of "maincpu" and leaves the rest of "fixed" alone; afterwards no
    event changes what is read from the fixed region or the contents of
    "maincpu". *)
Theorem fixed_region_is_image_tail (s0 : wpc_an_state) (evs : list event) :
  let s := run (init_wpc_an s0) evs in
  let nbytes := bytes (region_maincpu s0) in
  0x8000 <= nbytes < 0x100000000 ->
  (forall i, 0 <= i < 0x8000 ->
     fixed_r i s = base (region_maincpu s0) (nbytes - 0x8000 + i))
  /\ (forall i, ~ 0 <= i < 0x8000 -> fixed_r i s = base (region_fixed s0) i)
  /\ region_maincpu s = region_maincpu s0.
Proof.
  intros s nbytes Hn. subst s.
  assert (Hf : forall i, fixed_r i (run (init_wpc_an s0) evs)
                         = fixed_r i (init_wpc_an s0)).
  { intros i. unfold fixed_r. by rewrite run_region_fixed. }
  split; [|split].
  - intros i Hi. by apply run_init_fixed_tail.
  - intros i Hi. rewrite Hf, init_fixed_r.
    replace ((0 <=? i) && (i <? 0x8000)) with false by lia. reflexivity.
  - by rewrite run_region_maincpu.
Qed.

Lemma fixed_region_is_image_tail_witness :
  fixed_r 0x7fff (run fh_905h [ev_rombank_w 3; ev_machine_reset])
  = 0x8ffff `mod` 251.
Proof.
  refine (proj1 (fixed_region_is_image_tail
            (wpc_an (cold_state (rom_image 0x90000)))
            [ev_rombank_w 3; ev_machine_reset] _) 0x7fff _).
  - simpl. lia.
  - lia.
Defined.

Lemma land_mask_bounds x m : 0 <= m -> 0 <= Z.land x m <= m.
Proof.
  intros Hm. split; [apply Z.land_nonneg; by right|].
  assert (H : Z.ldiff (Z.land x m) m = 0).
  { apply Z.bits_inj'. intros n Hn.
    rewrite Z.ldiff_spec, Z.land_spec, Z.bits_0.
    by destruct (Z.testbit x n), (Z.testbit m n). }
  apply Z.sub_nocarry_ldiff in H.
  assert (0 <= Z.ldiff m (Z.land x m)) by (apply Z.ldiff_nonneg; by left).
  lia.
Qed.

Lemma land_pow2_below k x : 0 <= k -> 0 <= x < 2 ^ k -> Z.land x (2 ^ k - 1) = x.
Proof.
  intros Hk Hx. replace (2 ^ k - 1) with (Z.ones k)
    by (rewrite Z.ones_equiv; lia).
  rewrite Z.land_ones by done. by apply Z.mod_small.
Qed.

(* The mask of an image of 1 to 256 pages. *)
Lemma init_bankmask_pages s0 pages :
  bytes (region_maincpu s0) = 0x10000 + pages * 0x4000 ->
  1 <= pages <= 256 ->
  m_bankmask (init_wpc_an s0) = pages - 1.
Proof.
  intros Hb Hp. rewrite init_bankmask, Hb, u8_u32.
  unfold image_size_pages, u32.
  replace (0x10000 + pages * 0x4000 - 0x10000) with (pages * 2 ^ 14) by lia.
  rewrite Z.mod_small by lia.
  rewrite Z.shiftr_div_pow2, Z.div_mul by lia.
  unfold u8. apply Z.mod_small. lia.
Qed.

(** X3. When "maincpu" holds a power-of-two number of pages, at least two
    and at most 256, behind its first 0x10000 bytes, the fixed region shows
    the last two pages of the image: its lower half is what the bank window
    shows after selecting page pages-2, its upper half what it shows after
    selecting page pages-1. *)
Theorem fixed_region_mirrors_last_pages
    (s0 : wpc_an_state) (evs : list event) (k : Z) :
  let s := run (init_wpc_an s0) evs in
  let pages := 2 ^ k in
  1 <= k <= 8 ->
  bytes (region_maincpu s0) = 0x10000 + pages * 0x4000 ->
  forall i, 0 <= i < 0x4000 ->
    fixed_r i s = bank_r i (wpc_rombank_w (pages - 2) s)
    /\ fixed_r (0x4000 + i) s = bank_r i (wpc_rombank_w (pages - 1) s).
Proof.
  intros s pages Hk Hb i Hi.
  assert (Hp : 2 <= pages <= 256).
  { subst pages. split.
    - change 2 with (2 ^ 1). apply Z.pow_le_mono_r; lia.
    - change 256 with (2 ^ 8). apply Z.pow_le_mono_r; lia. }
  assert (Hlay : bank_layout (m_cpubank s) = (0, 32, 0x10000, 0x4000)).
  { subst s. by rewrite run_bank_layout, init_bank_layout. }
  assert (Hmask : m_bankmask s = pages - 1).
  { subst s. rewrite run_bankmask. apply init_bankmask_pages; [done|lia]. }
  assert (Hrom : region_maincpu s = region_maincpu s0).
  { subst s. by rewrite run_region_maincpu. }
  rewrite !bank_r_select, Hmask, Hrom by done.
  subst pages. rewrite !land_pow2_below by lia.
  subst s. rewrite !run_init_fixed_tail by (rewrite ?Hb; lia).
  rewrite Hb. split; f_equal; lia.
Qed.

Lemma fixed_region_mirrors_last_pages_witness :
  fixed_r 0x123 fh_905h = bank_r 0x123 (wpc_rombank_w 30 fh_905h)
  /\ fixed_r 0x4123 fh_905h = bank_r 0x123 (wpc_rombank_w 31 fh_905h).
Proof.
  refine (fixed_region_mirrors_last_pages
            (wpc_an (cold_state (rom_image 0x90000))) [] 5 _ _ 0x123 _).
  - lia.
  - reflexivity.
  - lia.
Defined.

(* --------------------------------------------------------------------- *)
(* Bank selection                                                         *)
(* --------------------------------------------------------------------- *)

Lemma init_bankmask_range s : 0 <= m_bankmask (init_wpc_an s) < 0x100.
Proof. rewrite init_bankmask. unfold u8. apply Z.mod_pos_bound. lia. Qed.

(* The selected entry never exceeds the mask. *)
Lemma step_entry_le_mask s e :
  0 <= m_bankmask s ->
  0 <= entry (m_cpubank s) <= m_bankmask s ->
  0 <= entry (m_cpubank (step s e)) <= m_bankmask (step s e).
Proof.
  intros Hm He. rewrite step_bankmask.
  destruct e; simpl; handler_cases; try done.
  by apply land_mask_bounds.
Qed.

Lemma run_entry_le_mask evs : forall s,
  0 <= m_bankmask s ->
  0 <= entry (m_cpubank s) <= m_bankmask s ->
  0 <= entry (m_cpubank (run s evs)) <= m_bankmask s.
Proof.
  induction evs as [|e evs IH]; intros s Hm He; simpl; [done|].
  rewrite <- (step_bankmask s e). apply IH.
  - by rewrite step_bankmask.
  - by apply step_entry_le_mask.
Qed.

(** X4. After init_wpc_an the selected bank entry always lies between 0
    and bank_mask, whatever bytes are written to the bank-select port.  For
    an image of 1 to 256 pages every read through the 0x4000-byte bank
    window therefore stays inside "maincpu", behind its first 0x10000
    bytes; with at most 32 pages the entry is one of the 32 configured. *)
Theorem bank_entry_in_bounds (s0 : wpc_an_state) (evs : list event) :
  let s := run (init_wpc_an s0) evs in
  let nbytes := bytes (region_maincpu s0) in
  (0 <= entry (m_cpubank s) <= m_bankmask s /\ m_bankmask s < 0x100)
  /\ (forall pages, nbytes = 0x10000 + pages * 0x4000 -> 1 <= pages <= 256 ->
        (forall offset, 0 <= offset < 0x4000 ->
           0x10000 <= bank_address (m_cpubank s) offset < nbytes)
        /\ (pages <= 32 ->
            entries_start (m_cpubank s) <= entry (m_cpubank s)
            < entries_start (m_cpubank s) + entries_count (m_cpubank s))).
Proof.
  intros s nbytes.
  pose proof (init_bankmask_range s0) as Hr.
  assert (He : 0 <= entry (m_cpubank s) <= m_bankmask (init_wpc_an s0)).
  { subst s. apply run_entry_le_mask; [lia|].
    change (entry (m_cpubank (init_wpc_an s0))) with 0. lia. }
  assert (Hm : m_bankmask s = m_bankmask (init_wpc_an s0)).
  { subst s. apply run_bankmask. }
  assert (Hlay : bank_layout (m_cpubank s) = (0, 32, 0x10000, 0x4000)).
  { subst s. by rewrite run_bank_layout, init_bank_layout. }
  unfold bank_layout in Hlay. injection Hlay as Hs Hc Hb Hst.
  split; [rewrite Hm; lia|].
  intros pages Hn Hp.
  rewrite (init_bankmask_pages s0 pages) in He by done.
  split.
  - intros offset Ho. unfold bank_address. rewrite Hs, Hb, Hst.
    fold nbytes in Hn. nia.
  - intros H32. rewrite Hs, Hc. lia.
Qed.

Lemma bank_entry_in_bounds_witness :
  let s := run fh_905h [ev_rombank_w 0xff; ev_timer 0; ev_rombank_w 0x7e] in
  0x10000 <= bank_address (m_cpubank s) 0x3fff < 0x90000.
Proof.
  pose proof (bank_entry_in_bounds (wpc_an (cold_state (rom_image 0x90000)))
                [ev_rombank_w 0xff; ev_timer 0; ev_rombank_w 0x7e])
    as (_ & H).
  refine (proj1 (H 32 _ _) 0x3fff _); [reflexivity | lia | lia].
Defined.

Lemma step_cpubank s e :
  is_bank_select e = false -> m_cpubank (step s e) = m_cpubank s.
Proof.
  intros Hb. destruct e; simpl in *; handler_cases; try reflexivity; congruence.
Qed.

Lemma run_cpubank evs : forall s,
  Forall (fun e => is_bank_select e = false) evs ->
  m_cpubank (run s evs) = m_cpubank s.
Proof.
  induction evs as [|e evs IH]; intros s Hall; simpl; [done|].
  inversion Hall as [|? ? He Hrest]; subst.
  rewrite IH by done. by apply step_cpubank.
Qed.

(** X5. The bank window is stable between bank selections: over any
    sequence of events without a bank-select write and without a machine
    reset, every offset of the window keeps reading the same byte.  In
    particular RAM writes, timers and sound traffic never switch or alter
    the banked ROM. *)
Theorem bank_window_stable (s : wpc_an_state) (evs : list event) :
  Forall (fun e => is_bank_select e = false) evs ->
  m_cpubank (run s evs) = m_cpubank s
  /\ forall offset, bank_r offset (run s evs) = bank_r offset s.
Proof.
  intros Hall. split; [by apply run_cpubank|].
  intros offset. unfold bank_r.
  by rewrite run_cpubank, run_region_maincpu.
Qed.

Lemma bank_window_stable_witness :
  bank_r 0x10 (run (wpc_rombank_w 9 fh_905h)
                 [ev_ram_w 0x20 1; ev_timer TIMER_VBLANK; ev_timer TIMER_IRQ;
                  ev_sound_data_w 4; ev_wpc_protection_w false 0])
  = bank_r 0x10 (wpc_rombank_w 9 fh_905h).
Proof.
  refine (proj2 (bank_window_stable (wpc_rombank_w 9 fh_905h) _ _) 0x10).
  repeat constructor.
Defined.

(** X6. For the bank window a machine reset is a write of 0 to the
    bank-select port: both leave the bank in the same state, and in every
    state reached after init_wpc_an the window then shows the first page
    of the image, at 0x10000 of "maincpu". *)
Theorem machine_reset_selects_first_page
    (s0 : wpc_an_state) (evs : list event) :
  let s := run (init_wpc_an s0) evs in
  m_cpubank (machine_reset s) = m_cpubank (wpc_rombank_w 0 s)
  /\ forall offset,
       bank_r offset (machine_reset s)
       = base (region_maincpu s0) (0x10000 + offset).
Proof.
  intros s.
  assert (Hlay : bank_layout (m_cpubank s) = (0, 32, 0x10000, 0x4000)).
  { subst s. by rewrite run_bank_layout, init_bank_layout. }
  assert (Hrom : region_maincpu s = region_maincpu s0).
  { subst s. by rewrite run_region_maincpu. }
  split; [reflexivity|].
  intros offset. unfold bank_layout in Hlay. injection Hlay as Hs Hc Hb Hst.
  unfold bank_r, bank_address, machine_reset. simpl.
  rewrite Hs, Hb, Hst, Hrom. f_equal.
Qed.

(* --------------------------------------------------------------------- *)
(* Protected RAM, continued                                               *)
(* --------------------------------------------------------------------- *)

Lemma ram_w_wpc s offset data : m_wpc (ram_w offset data s) = m_wpc s.
Proof. unfold ram_w. by case_match. Qed.

(** X7. Two edges of the comparator of ram_w.  With protection active and
    a mask of 0 every write is dropped, at every offset.  A mask larger
    than the offset can never match it, so the write is stored whether
    protection is active or not; a mask of 0x3000 or more therefore
    protects nothing of the 0x3000-byte RAM. *)
Theorem protection_mask_edges (s : wpc_an_state) (offset data : Z) :
  0 <= offset ->
  (memprotect_active (m_wpc s) = true ->
   get_memprotect_mask (m_wpc s) = 0 ->
   ram_w offset data s = logerror (LOG_protection_violation offset 0) s)
  /\ (offset < get_memprotect_mask (m_wpc s) ->
      ram_w offset data s
      = with_ram (<[Z.to_nat offset := data]> (m_ram s)) s)
  /\ (offset < 0x3000 -> 0x3000 <= get_memprotect_mask (m_wpc s) ->
      ram_r offset (ram_w offset data s)
      = if decide (Z.to_nat offset < length (m_ram s))%nat
        then data else 0).
Proof.
  intros Ho.
  assert (Hlt : offset < get_memprotect_mask (m_wpc s) ->
                ram_w offset data s
                = with_ram (<[Z.to_nat offset := data]> (m_ram s)) s).
  { intros Hm. apply ram_w_stored. intros [_ Heq].
    pose proof (land_mask_bounds (get_memprotect_mask (m_wpc s)) offset Ho).
    rewrite Z.land_comm in H. lia. }
  split; [|split; [done|]].
  - intros Ha Hz. rewrite ram_w_blocked; [by rewrite Hz|done|].
    rewrite Hz. apply Z.land_0_r.
  - intros Hr Hm. rewrite Hlt by lia. unfold ram_r. simpl.
    case_decide.
    + by rewrite list_lookup_insert_eq.
    + rewrite list_insert_ge by lia. by rewrite lookup_ge_None_2 by lia.
Qed.

Lemma protection_mask_edges_witness :
  ram_w 0x123 0x5a (step fh_905h (ev_wpc_protection_w true 0))
  = logerror (LOG_protection_violation 0x123 0)
      (step fh_905h (ev_wpc_protection_w true 0))
  /\ ram_r 0x2fff
       (ram_w 0x2fff 0x5a (step fh_905h (ev_wpc_protection_w true 0x3000)))
     = 0x5a.
Proof.
  split.
  - refine (proj1 (protection_mask_edges
              (step fh_905h (ev_wpc_protection_w true 0)) 0x123 0x5a _) _ _);
      [lia | reflexivity | reflexivity].
  - refine (proj2 (proj2 (protection_mask_edges
              (step fh_905h (ev_wpc_protection_w true 0x3000))
              0x2fff 0x5a _)) _ _); [lia | lia | simpl; lia].
Defined.

(** X8. Accepted writes compose like array stores.  When neither offset is
    caught by the protection comparator, a second write to the same offset
    makes the first one unobservable, and writes to two different offsets
    give the same machine state in either order. *)
Theorem ram_w_overwrite_and_commute
    (s : wpc_an_state) (o1 o2 d1 d2 : Z) :
  let mask := get_memprotect_mask (m_wpc s) in
  let rejected o :=
    memprotect_active (m_wpc s) = true /\ Z.land o mask = mask in
  ~ rejected o1 -> ~ rejected o2 ->
  ram_w o1 d2 (ram_w o1 d1 s) = ram_w o1 d2 s
  /\ (Z.to_nat o1 <> Z.to_nat o2 ->
      ram_w o1 d1 (ram_w o2 d2 s) = ram_w o2 d2 (ram_w o1 d1 s)).
Proof.
  intros mask rejected H1 H2. subst mask rejected.
  assert (Hs : forall o d t, m_wpc t = m_wpc s ->
            ~ (memprotect_active (m_wpc s) = true
               /\ Z.land o (get_memprotect_mask (m_wpc s))
                  = get_memprotect_mask (m_wpc s)) ->
            ram_w o d t = with_ram (<[Z.to_nat o := d]> (m_ram t)) t).
  { intros o d t Ht Hn. apply ram_w_stored. by rewrite Ht. }
  split.
  - rewrite (Hs o1 d1 s), (Hs o1 d2 s), Hs by done.
    unfold with_ram. simpl. by rewrite list_insert_insert_eq.
  - intros Hne.
    rewrite (Hs o2 d2 s), (Hs o1 d1 s), !Hs by done.
    unfold with_ram. simpl. by rewrite list_insert_insert_ne.
Qed.

Lemma ram_w_overwrite_and_commute_witness :
  ram_w 0x10 2 (ram_w 0x10 1 fh_905h) = ram_w 0x10 2 fh_905h
  /\ ram_w 0x10 1 (ram_w 0x7ff 2 fh_905h)
     = ram_w 0x7ff 2 (ram_w 0x10 1 fh_905h).
Proof.
  assert (H1 : ~ (true = true /\ Z.land 0x10 0x0800 = 0x0800))
    by (intros [_ E]; discriminate E).
  assert (H2 : ~ (true = true /\ Z.land 0x7ff 0x0800 = 0x0800))
    by (intros [_ E]; discriminate E).
  split.
  - exact (proj1 (ram_w_overwrite_and_commute fh_905h 0x10 0x10 1 2 H1 H1)).
  - apply (proj2 (ram_w_overwrite_and_commute fh_905h 0x10 0x7ff 1 2 H1 H2)).
    discriminate.
Defined.

Lemma step_ram s e : is_ram_write e = false -> m_ram (step s e) = m_ram s.
Proof.
  intros Hw. destruct e; simpl in *; try discriminate Hw;
    handler_cases; reflexivity.
Qed.

Lemma run_ram evs : forall s,
  Forall (fun e => is_ram_write e = false) evs ->
  m_ram (run s evs) = m_ram s.
Proof.
  induction evs as [|e evs IH]; intros s Hall; simpl; [done|].
  inversion Hall as [|? ? He Hrest]; subst.
  rewrite IH by done. by apply step_ram.
Qed.

(** X9. Only ram_w changes the protected RAM: over any sequence of timer
    fires, bank switches, interrupt acknowledges, sound traffic, resets and
    register-file changes the buffer is the same list of bytes, so a byte
    stored by an accepted write is read back unchanged afterwards. *)
Theorem ram_changed_only_by_ram_w
    (s : wpc_an_state) (evs : list event) (offset data : Z) :
  Forall (fun e => is_ram_write e = false) evs ->
  m_ram (run s evs) = m_ram s
  /\ ram_r offset (run (ram_w offset data s) evs)
     = ram_r offset (ram_w offset data s).
Proof.
  intros Hall. split; [by apply run_ram|].
  unfold ram_r. by rewrite run_ram.
Qed.

Lemma ram_changed_only_by_ram_w_witness :
  ram_r 0x40 (run (ram_w 0x40 0x77 fh_905h)
                [ev_machine_reset; ev_timer TIMER_VBLANK; ev_rombank_w 3;
                 ev_wpc_protection_w true 0; ev_sound_ctrl_w 1])
  = 0x77.
Proof.
  refine (eq_trans (proj2 (ram_changed_only_by_ram_w fh_905h
            [ev_machine_reset; ev_timer TIMER_VBLANK; ev_rombank_w 3;
             ev_wpc_protection_w true 0; ev_sound_ctrl_w 1] 0x40 0x77 _)) _).
  - repeat constructor.
  - vm_compute. reflexivity.
Defined.

(* --------------------------------------------------------------------- *)
(* Sound link, continued                                                  *)
(* --------------------------------------------------------------------- *)

(** X10. With the WPC sound board and no strobe board (variant A),
    ctrl_write and data_write each hand exactly one call with the written
    byte to the board, the S11 port does nothing at all, and the two reads
    send the board no call. *)
Theorem sound_link_wpcsnd_routing
    (s : wpc_an_state) (d : wpcsnd_device) (data : Z) :
  m_bg s = None -> m_wpcsnd s = Some d ->
  (snd_calls <$> m_wpcsnd (wpc_sound_ctrl_w data s))
  = Some (snd_calls d ++ [ctrl_w data])
  /\ (snd_calls <$> m_wpcsnd (wpc_sound_data_w data s))
     = Some (snd_calls d ++ [data_w data])
  /\ wpc_sound_s11_w data s = s
  /\ (snd_calls <$> m_wpcsnd (snd (wpc_sound_ctrl_r s))) = Some (snd_calls d)
  /\ (snd_calls <$> m_wpcsnd (snd (wpc_sound_data_r s))) = Some (snd_calls d)
  /\ m_bg (wpc_sound_ctrl_w data s) = None
  /\ m_bg (wpc_sound_data_w data s) = None.
Proof.
  intros Hbg Hsnd.
  unfold wpc_sound_ctrl_w, wpc_sound_data_w, wpc_sound_s11_w,
    wpc_sound_ctrl_r, wpc_sound_data_r.
  rewrite Hbg, Hsnd. simpl. rewrite Hsnd, Hbg. done.
Qed.

Lemma sound_link_wpcsnd_routing_witness :
  (snd_calls <$> m_wpcsnd (wpc_sound_data_w 0x42 fh_905h))
  = Some [data_w 0x42]
  /\ wpc_sound_s11_w 0x42 fh_905h = fh_905h.
Proof.
  pose proof (sound_link_wpcsnd_routing fh_905h
                {| snd_calls := []; snd_reply := 0; snd_semaphore := false |}
                0x42 eq_refl eq_refl) as (_ & Hd & Hs & _).
  split; [exact Hd | exact Hs].
Defined.

Lemma step_sound_boards s e :
  (m_bg (step s e) = None <-> m_bg s = None)
  /\ (m_wpcsnd (step s e) = None <-> m_wpcsnd s = None).
Proof.
  destruct e; simpl; handler_cases; split; split; try done; congruence.
Qed.

Lemma run_sound_boards evs : forall s,
  (m_bg (run s evs) = None <-> m_bg s = None)
  /\ (m_wpcsnd (run s evs) = None <-> m_wpcsnd s = None).
Proof.
  induction evs as [|e evs IH]; intros s; simpl; [done|].
  destruct (IH (step s e)) as [-> ->]. apply step_sound_boards.
Qed.

(** X11. A machine keeps the sound board it was configured with.  In every
    state reached after init_wpc_an, a machine built by wpc_an has the WPC
    sound board and no strobe board, and a machine built by wpc_an_dd has
    the strobe board and no WPC sound board; so the write handlers always
    find the board they forward to. *)
Theorem sound_board_fixed_by_configuration
    (s0 : wpc_an_state) (evs : list event) :
  (let s := run (init_wpc_an (wpc_an s0)) evs in
   m_bg s = None /\ is_Some (m_wpcsnd s))
  /\ (let s := run (init_wpc_an (wpc_an_dd s0)) evs in
      is_Some (m_bg s) /\ m_wpcsnd s = None).
Proof.
  split; intros s.
  - destruct (run_sound_boards evs (init_wpc_an (wpc_an s0))) as [Hb Hw].
    fold s in Hb, Hw. split; [by apply Hb|].
    assert (Hn : m_wpcsnd s <> None) by (intros E; by apply Hw in E).
    by destruct (m_wpcsnd s).
  - destruct (run_sound_boards evs (init_wpc_an (wpc_an_dd s0))) as [Hb Hw].
    fold s in Hb, Hw. split; [|by apply Hw].
    assert (Hn : m_bg s <> None) by (intros E; by apply Hb in E).
    by destruct (m_bg s).
Qed.

(** X12. On the strobe board a data_write followed by a ctrl_write moves
    the strobe line exactly as one S11 write does, low then high, and both
    leave the line high; the data_write alone leaves it low.  The pair puts
    its two bytes on the bus, the S11 write its one. *)
Theorem strobe_pair_equals_s11_pulse
    (s : wpc_an_state) (bg : s11c_bg_device) (d1 d2 : Z) :
  m_bg s = Some bg ->
  (strobe_line ∘ bg_calls <$> m_bg (wpc_sound_ctrl_w d2 (wpc_sound_data_w d1 s)))
  = Some (strobe_line (bg_calls bg) ++ [0; 1])
  /\ (strobe_line ∘ bg_calls <$> m_bg (wpc_sound_s11_w d1 s))
     = Some (strobe_line (bg_calls bg) ++ [0; 1])
  /\ (strobe_line ∘ bg_calls <$> m_bg (wpc_sound_data_w d1 s))
     = Some (strobe_line (bg_calls bg) ++ [0])
  /\ (data_bus ∘ bg_calls <$> m_bg (wpc_sound_ctrl_w d2 (wpc_sound_data_w d1 s)))
     = Some (data_bus (bg_calls bg) ++ [d1; d2])
  /\ (data_bus ∘ bg_calls <$> m_bg (wpc_sound_s11_w d1 s))
     = Some (data_bus (bg_calls bg) ++ [d1]).
Proof.
  intros Hbg.
  unfold wpc_sound_ctrl_w, wpc_sound_data_w, wpc_sound_s11_w, bg_call.
  rewrite Hbg. simpl.
  unfold strobe_line, data_bus. rewrite !omap_app. simpl.
  rewrite <- !app_assoc, !app_nil_r. done.
Qed.

Lemma strobe_pair_equals_s11_pulse_witness :
  (strobe_line ∘ bg_calls
     <$> m_bg (wpc_sound_ctrl_w 2 (wpc_sound_data_w 1 dd_p7)))
  = (strobe_line ∘ bg_calls <$> m_bg (wpc_sound_s11_w 1 dd_p7)).
Proof.
  pose proof (strobe_pair_equals_s11_pulse dd_p7 {| bg_calls := [] |} 1 2
                eq_refl) as (Hp & Hs & _).
  exact (eq_trans Hp (eq_sym Hs)).
Defined.

(* --------------------------------------------------------------------- *)
(* Frame timer, continued                                                 *)
(* --------------------------------------------------------------------- *)

(* The raw store holds nothing but zeros. *)
Lemma step_raw_store_blank s e :
  is_alphanumeric_write e = false ->
  alpha_data (m_wpc s) = replicate (length (alpha_data (m_wpc s))) 0 ->
  alpha_data (m_wpc (step s e))
  = replicate (length (alpha_data (m_wpc (step s e)))) 0.
Proof.
  intros Hw Hs.
  destruct e as [id| | | | | | | | | | | | | | | |];
    try discriminate Hw; [|simpl; handler_cases; exact Hs ..].
  cbn [step]. unfold device_timer.
  destruct (id =? TIMER_VBLANK); [|by destruct (id =? TIMER_IRQ)].
  cbn [m_wpc with_vblank_count with_wpc with_digits reset_alphanumeric
       alpha_data].
  by rewrite length_replicate.
Qed.

Lemma run_raw_store_blank evs : forall s,
  Forall (fun e => is_alphanumeric_write e = false) evs ->
  alpha_data (m_wpc s) = replicate (length (alpha_data (m_wpc s))) 0 ->
  alpha_data (m_wpc (run s evs))
  = replicate (length (alpha_data (m_wpc (run s evs)))) 0.
Proof.
  induction evs as [|e evs IH]; intros s Hall Hs; simpl; [done|].
  inversion Hall as [|? ? He Hrest]; subst.
  apply IH; [done|]. by apply step_raw_store_blank.
Qed.

Lemma get_alphanumeric_blank x w :
  alpha_data w = replicate (length (alpha_data w)) 0 ->
  get_alphanumeric x w = 0.
Proof.
  intros H. unfold get_alphanumeric. rewrite H.
  destruct (replicate _ _ !! _) as [v|] eqn:E; [|done].
  apply lookup_replicate in E as [-> _]. done.
Qed.

Lemma device_timer_vblank_blank s :
  alpha_data (m_wpc (device_timer TIMER_VBLANK s))
  = replicate (length (alpha_data (m_wpc (device_timer TIMER_VBLANK s)))) 0.
Proof.
  change (alpha_data (m_wpc (device_timer TIMER_VBLANK s)))
    with (replicate (length (alpha_data (m_wpc s))) 0).
  by rewrite length_replicate.
Qed.

(** X13. A frame fire consumes the raw store: if nothing writes the raw
    alphanumeric store between two frame fires, the second fire blanks the
    display, all 32 digits becoming 0, whatever else happened in between. *)
Theorem second_frame_fire_blanks_display
    (s : wpc_an_state) (evs : list event) :
  length (m_digits s) = 32%nat ->
  Forall (fun e => is_alphanumeric_write e = false) evs ->
  m_digits (device_timer TIMER_VBLANK
              (run (device_timer TIMER_VBLANK s) evs))
  = replicate 32 0.
Proof.
  intros Hlen Hall.
  set (t := run (device_timer TIMER_VBLANK s) evs).
  assert (Ht : length (m_digits t) = 32%nat).
  { subst t. rewrite run_digits_length.
    change (device_timer TIMER_VBLANK s)
      with (step s (ev_timer TIMER_VBLANK)).
    by rewrite step_digits_length. }
  assert (Hb : alpha_data (m_wpc t)
               = replicate (length (alpha_data (m_wpc t))) 0).
  { subst t. apply run_raw_store_blank; [done|].
    apply device_timer_vblank_blank. }
  rewrite device_timer_vblank_digits by done.
  etrans.
  - apply (list_fmap_ext _ (fun _ => 0)). intros i x _.
    by rewrite get_alphanumeric_blank.
  - reflexivity.
Qed.

Lemma second_frame_fire_blanks_display_witness :
  m_digits (device_timer TIMER_VBLANK
              (run (device_timer TIMER_VBLANK fh_905h)
                 [ev_ram_w 1 2; ev_timer TIMER_IRQ; ev_machine_reset]))
  = replicate 32 0.
Proof.
  apply (second_frame_fire_blanks_display fh_905h
           [ev_ram_w 1 2; ev_timer TIMER_IRQ; ev_machine_reset]).
  - reflexivity.
  - repeat constructor.
Defined.

Lemma run_vblank_fires n : forall s,
  0 <= m_vblank_count s < 0x10000 ->
  m_vblank_count (run s (replicate n (ev_timer TIMER_VBLANK)))
  = u16 (m_vblank_count s + Z.of_nat n).
Proof.
  induction n as [|n IH]; intros s Hc.
  - simpl. rewrite Z.add_0_r. unfold u16. by rewrite Z.mod_small.
  - cbn [replicate run foldl]. fold (run (step s (ev_timer TIMER_VBLANK))
                                      (replicate n (ev_timer TIMER_VBLANK))).
    change (m_vblank_count (step s (ev_timer TIMER_VBLANK)))
      with (u16 (m_vblank_count s + 1)) in IH.
    rewrite IH by (unfold u16; apply Z.mod_pos_bound; lia).
    change (m_vblank_count (step s (ev_timer TIMER_VBLANK)))
      with (u16 (m_vblank_count s + 1)).
    unfold u16. rewrite Zplus_mod_idemp_l. f_equal. lia.
Qed.

(** X14. m_vblank_count counts frame fires modulo 0x10000: n fires in a
    row take a 16-bit count c to (c + n) mod 0x10000, so 0x10000 fires
    bring it back to c, and after a machine reset n fires leave it at
    n mod 0x10000.  Events other than a frame fire and a reset leave it
    alone. *)
Theorem vblank_count_counts_fires (s : wpc_an_state) (n : nat) :
  0 <= m_vblank_count s < 0x10000 ->
  m_vblank_count (run s (replicate n (ev_timer TIMER_VBLANK)))
  = u16 (m_vblank_count s + Z.of_nat n)
  /\ m_vblank_count
       (run s (replicate (Z.to_nat 0x10000) (ev_timer TIMER_VBLANK)))
     = m_vblank_count s
  /\ m_vblank_count
       (run (machine_reset s) (replicate n (ev_timer TIMER_VBLANK)))
     = u16 (Z.of_nat n)
  /\ (forall e, is_frame_fire e = false -> e <> ev_machine_reset ->
        m_vblank_count (step s e) = m_vblank_count s).
Proof.
  intros Hc. split; [|split; [|split]].
  - by apply run_vblank_fires.
  - rewrite run_vblank_fires by done. unfold u16.
    rewrite Z2Nat.id by lia. change 0x10000 with (1 * 0x10000) at 1.
    rewrite Z_mod_plus_full. by apply Z.mod_small.
  - rewrite run_vblank_fires by (simpl; lia). reflexivity.
  - intros e Hf Hr.
    destruct e; simpl in *; handler_cases; try reflexivity; congruence.
Qed.

Lemma vblank_count_counts_fires_witness :
  m_vblank_count (run fh_905h (replicate 3 (ev_timer TIMER_VBLANK)))
  = 0xbef2.
Proof.
  refine (eq_trans (proj1 (vblank_count_counts_fires fh_905h 3 _)) _).
  - simpl. lia.
  - reflexivity.
Defined.

(* --------------------------------------------------------------------- *)
(* The segment reordering, continued                                      *)
(* --------------------------------------------------------------------- *)

Lemma testbit_below v n k :
  0 <= v < 2 ^ k -> 0 <= k <= n -> Z.testbit v n = false.
Proof.
  intros Hv Hn. rewrite <- (Z.mod_small v (2 ^ k)) by done.
  apply Z.mod_pow2_bits_high. lia.
Qed.

Lemma segment_order_cancel v :
  0 <= v < 0x10000 ->
  bitswap (bitswap v segment_inverse) segment_order = v.
Proof.
  intros Hv. apply Z.bits_inj'. intros n Hn.
  destruct (Z_lt_le_dec n 16) as [Hlt|Hge].
  - assert (Hk : (Z.to_nat n < 16)%nat) by lia.
    rewrite <- (Z2Nat.id n) by done.
    generalize dependent (Z.to_nat n). clear n Hn Hlt. intros k Hk.
    do 16 (destruct k as [|k];
           [erewrite (testbit_bitswap_Z _ segment_order);
              [|apply segment_order_nonneg|lia|reflexivity];
            erewrite (testbit_bitswap_Z _ segment_inverse);
              [|apply segment_inverse_nonneg|lia|reflexivity];
            reflexivity|]).
    lia.
  - rewrite testbit_bitswap_high, testbit_u16_high; try done.
    apply segment_order_nonneg.
Qed.

Lemma segment_order_low_segments v :
  0 <= v < 0x80 -> bitswap v segment_order = v.
Proof.
  intros Hv. apply Z.bits_inj'. intros n Hn.
  destruct (Z_lt_le_dec n 16) as [Hlt|Hge].
  - assert (Hk : (Z.to_nat n < 16)%nat) by lia.
    rewrite <- (Z2Nat.id n) by done.
    generalize dependent (Z.to_nat n). clear n Hn Hlt. intros k Hk.
    do 16 (destruct k as [|k];
           [erewrite (testbit_bitswap_Z _ segment_order);
              [|apply segment_order_nonneg|lia|reflexivity];
            first [reflexivity
                  | rewrite !(testbit_below v _ 7) by (done || lia);
                    reflexivity]|]).
    lia.
  - rewrite testbit_bitswap_high, (testbit_below v n 7); try done; try lia.
    apply segment_order_nonneg.
Qed.

Lemma segment_order_ignores_high v :
  bitswap (u16 v) segment_order = bitswap v segment_order.
Proof.
  apply Z.bits_inj'. intros n Hn.
  destruct (Z_lt_le_dec n 16) as [Hlt|Hge].
  - assert (Hk : (Z.to_nat n < 16)%nat) by lia.
    rewrite <- (Z2Nat.id n) by done.
    generalize dependent (Z.to_nat n). clear n Hn Hlt. intros k Hk.
    do 16 (destruct k as [|k];
           [erewrite !(testbit_bitswap_Z _ segment_order);
              [|apply segment_order_nonneg|lia|reflexivity
               |apply segment_order_nonneg|lia|reflexivity];
            unfold u16; change 0x10000 with (2 ^ 16);
            apply Z.mod_pow2_bits_low; lia|]).
    lia.
  - rewrite !testbit_bitswap_high; try done; apply segment_order_nonneg.
Qed.

(** X15. The segment reordering of the frame timer is a bijection of the
    16-bit patterns: the inverse order undoes it from either side, so two
    different raw patterns never show as the same digit.  It keeps the
    seven low segments where they are (a pattern below 0x80 is shown
    unchanged) and looks at the low 16 bits of its argument only. *)
Theorem segment_order_bijection :
  (forall v, 0 <= v < 0x10000 ->
     bitswap (bitswap v segment_inverse) segment_order = v
     /\ bitswap (bitswap v segment_order) segment_inverse = v)
  /\ (forall v w, 0 <= v < 0x10000 -> 0 <= w < 0x10000 ->
        bitswap v segment_order = bitswap w segment_order -> v = w)
  /\ (forall v, 0 <= v < 0x80 -> bitswap v segment_order = v)
  /\ (forall v, bitswap (u16 v) segment_order = bitswap v segment_order).
Proof.
  split; [|split; [|split]].
  - intros v Hv. split; [by apply segment_order_cancel|].
    by apply segment_inverse_cancel.
  - intros v w Hv Hw Heq.
    rewrite <- (segment_inverse_cancel v), <- (segment_inverse_cancel w)
      by done.
    by rewrite Heq.
  - apply segment_order_low_segments.
  - apply segment_order_ignores_high.
Qed.

Lemma segment_order_bijection_witness :
  bitswap (bitswap 0x1616 segment_order) segment_inverse = 0x1616
  /\ bitswap 0x7f segment_order = 0x7f.
Proof.
  destruct segment_order_bijection as (Hinv & _ & Hlow & _). split.
  - apply (Hinv 0x1616). lia.
  - apply (Hlow 0x7f). lia.
Defined.

(* --------------------------------------------------------------------- *)
(* Address map, continued                                                 *)
(* --------------------------------------------------------------------- *)

Lemma owners_singleton a e :
  owners a = [e] -> e ∈ wpc_an_map /\ in_range a e = true.
Proof.
  intros H. assert (He : e ∈ owners a) by (rewrite H; apply elem_of_cons; by left).
  unfold owners in He. apply list_elem_of_filter in He. tauto.
Qed.

(** X16. The offsets the address map hands to the handlers fit what the
    handlers index.  An address owned by ram_r/ram_w gives an offset below
    0x3000, which in every state reached after init_wpc_an is a valid index
    of m_ram; an address owned by the bank window gives an offset below the
    0x4000-byte page stride; an address owned by the fixed region gives an
    offset below the 0x8000 bytes init_wpc_an copies. *)
Theorem map_offsets_fit_handlers
    (s0 : wpc_an_state) (evs : list event) (a : Z) (e : map_entry) :
  owners a = [e] ->
  let s := run (init_wpc_an s0) evs in
  let offset := a - addrstart e in
  (bound_to e = rw_ram ->
   0 <= offset < 0x3000 /\ is_Some (m_ram s !! Z.to_nat offset))
  /\ (bound_to e = bankr_cpubank ->
      0 <= offset < entries_stride (m_cpubank s))
  /\ (bound_to e = rom_region_fixed -> 0 <= offset < 0x8000).
Proof.
  intros Ho s offset. subst offset.
  apply owners_singleton in Ho as [Hin Hr].
  assert (Hlen : length (m_ram s) = Z.to_nat 0x3000).
  { subst s. by rewrite run_ram_length, init_ram_length. }
  assert (Hlay : bank_layout (m_cpubank s) = (0, 32, 0x10000, 0x4000)).
  { subst s. by rewrite run_bank_layout, init_bank_layout. }
  unfold bank_layout in Hlay. injection Hlay as _ _ _ Hst. rewrite Hst.
  unfold wpc_an_map in Hin. rewrite !elem_of_cons, elem_of_nil in Hin.
  unfold in_range in Hr. apply andb_true_iff in Hr as [H1%Z.leb_le H2%Z.leb_le].
  destruct Hin as [->|[->|[->|[->|[->|[]]]]]]; simpl in *;
    (split; [|split]); intros Hb; try discriminate Hb; try lia.
  split; [lia|]. apply lookup_lt_is_Some. rewrite Hlen. lia.
Qed.

Lemma map_offsets_fit_handlers_witness :
  is_Some (m_ram (run fh_905h [ev_timer 0]) !! Z.to_nat (0x2fff - 0)).
Proof.
  refine (proj2 (proj1 (map_offsets_fit_handlers
            (wpc_an (cold_state (rom_image 0x90000))) [ev_timer 0] 0x2fff
            {| addrstart := 0x0000; addrend := 0x2fff; bound_to := rw_ram |}
            _) _)); reflexivity.
Defined.

(* --------------------------------------------------------------------- *)
(* Diagnostic log                                                         *)
(* --------------------------------------------------------------------- *)

Lemma step_errorlog s e :
  is_ram_write e = false -> errorlog (step s e) = errorlog s.
Proof.
  intros Hw. destruct e; simpl in *; try discriminate Hw;
    handler_cases; reflexivity.
Qed.

Lemma step_errorlog_prefix s e : errorlog s `prefix_of` errorlog (step s e).
Proof.
  destruct (is_ram_write e) eqn:Hw.
  - destruct e; try discriminate Hw. simpl. unfold ram_w.
    case_match; simpl; [done|]. by apply prefix_app_r.
  - by rewrite step_errorlog.
Qed.

(** X17. The diagnostic log is append-only and only rejected RAM writes
    add to it after init_wpc_an: every event sequence leaves the earlier
    log as a prefix of the later one, a sequence without RAM writes leaves
    it unchanged, and an accepted RAM write adds nothing. *)
Theorem errorlog_append_only (s : wpc_an_state) (evs : list event) :
  errorlog s `prefix_of` errorlog (run s evs)
  /\ (Forall (fun e => is_ram_write e = false) evs ->
      errorlog (run s evs) = errorlog s)
  /\ (forall offset data,
        ~ (memprotect_active (m_wpc s) = true
           /\ Z.land offset (get_memprotect_mask (m_wpc s))
              = get_memprotect_mask (m_wpc s)) ->
        errorlog (ram_w offset data s) = errorlog s).
Proof.
  split; [|split].
  - revert s. induction evs as [|e evs IH]; intros s; simpl; [done|].
    etrans; [apply (step_errorlog_prefix s e) | apply IH].
  - revert s. induction evs as [|e evs IH]; intros s Hall; simpl; [done|].
    inversion Hall as [|? ? He Hrest]; subst.
    rewrite IH by done. by apply step_errorlog.
  - intros offset data Hn. by rewrite ram_w_stored.
Qed.

Lemma errorlog_append_only_witness :
  errorlog (run fh_905h [ev_timer 0; ev_rombank_w 1; ev_machine_reset])
  = [LOG_bank_mask 0x1f].
Proof.
  refine (proj1 (proj2 (errorlog_append_only fh_905h
            [ev_timer 0; ev_rombank_w 1; ev_machine_reset])) _).
  repeat constructor.
Defined.

(* --------------------------------------------------------------------- *)
(* IRQ counter and comparator order                                       *)
(* --------------------------------------------------------------------- *)

Lemma step_irq_count s e :
  m_irq_count (step s e) = m_irq_count s \/ m_irq_count (step s e) = 0.
Proof. destruct e; simpl; handler_cases; auto. Qed.

Lemma run_irq_count_zero evs : forall s,
  m_irq_count s = 0 -> m_irq_count (run s evs) = 0.
Proof.
  induction evs as [|e evs IH]; intros s Hs; simpl; [done|].
  apply IH. destruct (step_irq_count s e) as [->| ->]; done.
Qed.

(** X18. m_irq_count is never advanced: an IRQ timer fire asserts the line
    without touching the counter, and no other event writes anything but 0
    to it, so after a machine reset it reads 0 for the rest of the run. *)
Theorem irq_count_never_advanced (s : wpc_an_state) (evs : list event) :
  m_irq_count (device_timer TIMER_IRQ s) = m_irq_count s
  /\ m_irq_count (run (machine_reset s) evs) = 0
  /\ (m_irq_count (run s evs) = m_irq_count s
      \/ m_irq_count (run s evs) = 0).
Proof.
  split; [reflexivity|]. split; [by apply run_irq_count_zero|].
  revert s. induction evs as [|e evs IH]; intros s; simpl; [by left|].
  destruct (IH (step s e)) as [H|H]; [|by right].
  rewrite H. apply step_irq_count.
Qed.

(** X19. The comparator of ram_w orders masks and offsets by their bits.
    With protection active, an offset that a mask rejects is also rejected
    by every mask whose bits are among that mask's bits, and every offset
    that contains the bits of a rejected offset is rejected too. *)
Theorem protection_comparator_monotone
    (s1 s2 : wpc_an_state) (offset offset' data : Z) :
  memprotect_active (m_wpc s1) = true ->
  memprotect_active (m_wpc s2) = true ->
  let m1 := get_memprotect_mask (m_wpc s1) in
  let m2 := get_memprotect_mask (m_wpc s2) in
  Z.land m1 m2 = m1 ->
  ram_w offset data s2 = logerror (LOG_protection_violation offset m2) s2 ->
  ram_w offset data s1 = logerror (LOG_protection_violation offset m1) s1
  /\ (Z.land offset' offset = offset ->
      ram_w offset' data s2
      = logerror (LOG_protection_violation offset' m2) s2).
Proof.
  intros Ha1 Ha2 m1 m2 Hsub Hrej. subst m1 m2.
  assert (Hm : Z.land offset (get_memprotect_mask (m_wpc s2))
               = get_memprotect_mask (m_wpc s2)).
  { unfold ram_w in Hrej. destruct (negb _ || negb _) eqn:E.
    - apply (f_equal errorlog) in Hrej. simpl in Hrej.
      symmetry in Hrej. by apply snoc_neq in Hrej.
    - by apply ram_w_guard in E as [_ E]. }
  split.
  - apply ram_w_blocked; [done|].
    rewrite <- Hsub at 1. rewrite (Z.land_comm (get_memprotect_mask _)).
    rewrite Z.land_assoc, Hm, Z.land_comm. exact Hsub.
  - intros Ho. apply ram_w_blocked; [done|].
    rewrite <- Hm at 1. by rewrite Z.land_assoc, Ho.
Qed.

Lemma protection_comparator_monotone_witness :
  ram_w 0x0c00 1 fh_905h
  = logerror (LOG_protection_violation 0x0c00 0x0800) fh_905h.
Proof.
  refine (proj2 (protection_comparator_monotone
            fh_905h fh_905h 0x0800 0x0c00 1 _ _ _ _) _); reflexivity.
Defined.
